(** * UAsmsDashboard: the APK version catalog of [UpdateManager]

    A shallow embedding of the two revisions of the [UpdateManager] React
    component (the one that uploads an APK to Firebase storage and the one
    that records an externally hosted download link), of the Firestore
    collection [app_versions] they read and write, and of the JavaScript
    built-ins their handlers call.

    Conventions.
    - JavaScript numbers are [JS.number]: exact rationals together with
      [NaN] and the two infinities.  IEEE-754 rounding and the sign of zero
      are not represented.
    - JavaScript strings are [string]; only the ASCII white space
      characters count as white space.
    - React state is a record, a handler is a function from the state (and
      the outside world) to the next state (and world).  The values a
      handler closes over are those of the render in which it was created,
      that is, the fields of the state it is applied to.
    - The Firestore collection is a finite map from document ids to
      documents; [setDoc], [updateDoc] and the ordered query follow the
      documented behaviour of the Firestore SDK. *)

From Stdlib Require Import ZArith QArith Qcanon String Ascii List Lia.
From stdpp Require Import base decidable option numbers list strings gmap sorting.

Open Scope Z_scope.

(** ** JavaScript numbers and the string built-ins used by the handlers *)

Module JS.

Inductive number := NaN | NegInf | Fin (q : Qc) | PosInf.

(** What a thrown exception or a rejected promise carries. *)
Inductive error :=
| not_found (collection id : string)
| failure (message : string).

Definition message (e : error) : string :=
  match e with
  | not_found c id => "No document to update: " ++ c ++ "/" ++ id
  | failure m => m
  end.

(** How a promise settles. *)
Inductive settled (A : Type) :=
| fulfilled (value : A)
| rejected (reason : error).
Global Arguments fulfilled {A} value.
Global Arguments rejected {A} reason.

(** The value of a function that returns nothing. *)
Definition undefined : unit := tt.

Global Instance number_eq_dec : EqDecision number.
Proof. solve_decision. Defined.

Definition of_Z (z : Z) : number := Fin (Qc_of_Z z).

(** [a <= b] on numbers; every comparison with [NaN] is false. *)
Definition le (a b : number) : bool :=
  match a, b with
  | NaN, _ | _, NaN => false
  | NegInf, _ => true
  | _, PosInf => true
  | Fin x, Fin y => bool_decide (x ≤ y)%Qc
  | _, _ => false
  end.

(** [a === b] on numbers: [NaN] is not equal to itself. *)
Definition strict_eq (a b : number) : bool :=
  match a, b with
  | NaN, _ | _, NaN => false
  | _, _ => bool_decide (a = b)
  end.

(** [Number.isInteger(n)]. *)
Definition isInteger (n : number) : Prop :=
  match n with
  | Fin q => Qden q = 1%positive
  | _ => False
  end.

Global Instance isInteger_dec n : Decision (isInteger n).
Proof. destruct n; simpl; apply _. Defined.

Definition sign_of (q : Qc) : comparison := (0 ?= q)%Qc.

(** [a * b]. *)
Definition mul (a b : number) : number :=
  match a, b with
  | NaN, _ | _, NaN => NaN
  | Fin x, Fin y => Fin (x * y)%Qc
  | Fin x, PosInf | PosInf, Fin x =>
      match sign_of x with Eq => NaN | Lt => PosInf | Gt => NegInf end
  | Fin x, NegInf | NegInf, Fin x =>
      match sign_of x with Eq => NaN | Lt => NegInf | Gt => PosInf end
  | PosInf, PosInf | NegInf, NegInf => PosInf
  | PosInf, NegInf | NegInf, PosInf => NegInf
  end.

(** [a / b]; a zero divisor is the positive zero. *)
Definition div (a b : number) : number :=
  match a, b with
  | NaN, _ | _, NaN => NaN
  | Fin x, Fin y =>
      match sign_of y with
      | Eq => match sign_of x with Eq => NaN | Lt => PosInf | Gt => NegInf end
      | _ => Fin (x / y)%Qc
      end
  | Fin _, (PosInf | NegInf) => Fin 0%Qc
  | PosInf, Fin y => match sign_of y with Gt => NegInf | _ => PosInf end
  | NegInf, Fin y => match sign_of y with Gt => PosInf | _ => NegInf end
  | (PosInf | NegInf), (PosInf | NegInf) => NaN
  end.

(** *** Characters *)

Definition code (c : ascii) : Z := Z.of_N (N_of_ascii c).

(** TAB, LF, VT, FF, CR and SP. *)
Definition is_whitespace (c : ascii) : bool :=
  let n := code c in ((9 <=? n) && (n <=? 13)) || (n =? 32).

Definition is_digit (c : ascii) : bool :=
  let n := code c in (48 <=? n) && (n <=? 57).

Definition is_hex_digit (c : ascii) : bool :=
  let n := code c in
  is_digit c || ((65 <=? n) && (n <=? 70)) || ((97 <=? n) && (n <=? 102)).

Definition is_octal_digit (c : ascii) : bool :=
  let n := code c in (48 <=? n) && (n <=? 55).

Definition is_binary_digit (c : ascii) : bool :=
  let n := code c in (48 <=? n) && (n <=? 49).

(** The value of a digit in any radix up to sixteen. *)
Definition digit_value (c : ascii) : Z :=
  let n := code c in
  if is_digit c then n - 48
  else if 97 <=? n then n - 87
  else n - 55.

(** *** Strings *)

Fixpoint span (p : ascii → bool) (s : string) : string * string :=
  match s with
  | String c r =>
      if p c then let '(a, b) := span p r in (String c a, b) else (""%string, s)
  | EmptyString => (""%string, ""%string)
  end.

Fixpoint trimStart (s : string) : string :=
  match s with
  | String c r => if is_whitespace c then trimStart r else s
  | EmptyString => ""
  end.

Fixpoint trimEnd (s : string) : string :=
  match s with
  | String c r =>
      match trimEnd r with
      | EmptyString => if is_whitespace c then "" else String c ""
      | r' => String c r'
      end
  | EmptyString => ""
  end.

(** [s.trim()]. *)
Definition trim (s : string) : string := trimEnd (trimStart s).

(** A string is falsy exactly when it is empty. *)
Definition falsy (s : string) : bool := bool_decide (s = ""%string).

Fixpoint digits_value (radix : Z) (acc : Z) (s : string) : Z :=
  match s with
  | String c r => digits_value radix (acc * radix + digit_value c) r
  | EmptyString => acc
  end.

(** The rational [m * 10 ^ e]. *)
Definition scale10 (m e : Z) : Qc :=
  if 0 <=? e then Q2Qc (inject_Z (m * 10 ^ e))
  else Q2Qc (Qmake m (Z.to_pos (10 ^ (- e)))).

Definition negate (n : number) : number :=
  match n with
  | NaN => NaN
  | NegInf => PosInf
  | PosInf => NegInf
  | Fin q => Fin (- q)%Qc
  end.

Definition is_char (c d : ascii) : bool := bool_decide (c = d).

(** An optional sign: whether it is [-], and the rest of the string. *)
Definition scan_sign (s : string) : bool * string :=
  match s with
  | String c r =>
      if is_char c "-" then (true, r)
      else if is_char c "+" then (false, r)
      else (false, s)
  | EmptyString => (false, s)
  end.

(** The rest of [s] after the character [d], when [s] starts with it. *)
Definition after_char (d : ascii) (s : string) : option string :=
  match s with
  | String c r => if is_char c d then Some r else None
  | EmptyString => None
  end.

(** The rest of [s] after the prefix [p], when [s] starts with it. *)
Fixpoint after_prefix (p s : string) : option string :=
  match p with
  | EmptyString => Some s
  | String d p' =>
      match after_char d s with
      | Some r => after_prefix p' r
      | None => None
      end
  end.

(** An optional exponent part [e[+-]ddd]: its value and the rest.  An [e]
    that no digit follows is not part of the literal. *)
Definition scan_exponent (s : string) : Z * string :=
  match s with
  | String c r =>
      if is_char c "e" || is_char c "E" then
        let '(neg, r1) := scan_sign r in
        let '(ds, r2) := span is_digit r1 in
        if falsy ds then (0, s)
        else ((if neg then -1 else 1) * digits_value 10 0 ds, r2)
      else (0, s)
  | EmptyString => (0, s)
  end.

(** The longest prefix of [s] that is a [StrUnsignedDecimalLiteral], with
    its value, and the rest of [s]. *)
Definition scan_unsigned_decimal (s : string) : option (number * string) :=
  match after_prefix "Infinity" s with
  | Some rest => Some (PosInf, rest)
  | None =>
    let '(ds, r1) := span is_digit s in
    match after_char "." r1 with
    | Some r1' =>
        let '(fs, r2) := span is_digit r1' in
        if falsy ds && falsy fs then None
        else
          let '(e, r3) := scan_exponent r2 in
          Some (Fin (scale10 (digits_value 10 0 (ds ++ fs))
                             (e - Z.of_nat (String.length fs))), r3)
    | None =>
        if falsy ds then None
        else
          let '(e, r3) := scan_exponent r1 in
          Some (Fin (scale10 (digits_value 10 0 ds) e), r3)
    end
  end.

(** The longest prefix of [s] that is a [StrDecimalLiteral]. *)
Definition scan_decimal (s : string) : option (number * string) :=
  let '(neg, r) := scan_sign s in
  match scan_unsigned_decimal r with
  | Some (n, rest) => Some (if neg then negate n else n, rest)
  | None => None
  end.

(** The digits of a literal in the given radix, at least one. *)
Definition scan_digits (p : ascii → bool) (radix : Z) (s : string)
  : option (number * string) :=
  let '(ds, rest) := span p s in
  if falsy ds then None else Some (of_Z (digits_value radix 0 ds), rest).

(** [0x], [0o] and [0b] literals, which take no sign. *)
Definition scan_non_decimal (s : string) : option (number * string) :=
  match s with
  | String c0 (String c r) =>
      if negb (is_char c0 "0") then None
      else if is_char c "x" || is_char c "X" then scan_digits is_hex_digit 16 r
      else if is_char c "o" || is_char c "O" then scan_digits is_octal_digit 8 r
      else if is_char c "b" || is_char c "B" then scan_digits is_binary_digit 2 r
      else None
  | _ => None
  end.

(** [ToNumber] applied to a string, as the relational operators do before
    they compare a string with a number. *)
Definition ToNumber (s : string) : number :=
  let t := trimStart s in
  if falsy t then of_Z 0
  else
    match scan_non_decimal t with
    | Some (n, rest) => if falsy (trimStart rest) then n else NaN
    | None =>
        match scan_decimal t with
        | Some (n, rest) => if falsy (trimStart rest) then n else NaN
        | None => NaN
        end
    end.

(** [parseFloat(s)]. *)
Definition parseFloat (s : string) : number :=
  match scan_decimal (trimStart s) with
  | Some (n, _) => n
  | None => NaN
  end.

(** [parseInt(s)] without a radix. *)
Definition parseInt (s : string) : number :=
  let '(neg, r) := scan_sign (trimStart s) in
  let '(p, radix, r1) :=
    match r with
    | String c0 (String c r') =>
        if is_char c0 "0" && (is_char c "x" || is_char c "X")
        then (is_hex_digit, 16, r') else (is_digit, 10, r)
    | _ => (is_digit, 10, r)
    end in
  let '(ds, _) := span p r1 in
  if falsy ds then NaN
  else of_Z ((if neg then -1 else 1) * digits_value radix 0 ds).

End JS.

(** ** The value of an [<input type="number">]

    The browser hands the component either the empty string or a valid
    floating-point number: an optional [-], digits and/or a fraction, and
    an optional exponent. *)

Module HTML.


Definition valid_exponent (s : string) : bool :=
  match s with
  | EmptyString => true
  | String c r =>
      (JS.is_char c "e" || JS.is_char c "E") &&
      let '(ds, rest) := JS.span JS.is_digit (JS.scan_sign r).2 in
      negb (JS.falsy ds) && JS.falsy rest
  end.

Definition valid_floating_point_number (s : string) : bool :=
  let s1 := match JS.after_char "-" s with Some r => r | None => s end in
  let '(ds, r1) := JS.span JS.is_digit s1 in
  match JS.after_char "." r1 with
  | Some r1' =>
      let '(fs, r2) := JS.span JS.is_digit r1' in
      negb (JS.falsy fs) && valid_exponent r2
  | None => negb (JS.falsy ds) && valid_exponent r1
  end.

End HTML.

(** ** The documents of the collection [app_versions] *)

Module Version.

Record t := mk {
  versionName : string;
  versionCode : JS.number;
  downloadUrl : string;
  changelog : string;
  fileSize : JS.number;
  uploadedAt : Z;
  uploadedBy : string;
  isCritical : bool;
  isActive : bool;
  downloadCount : JS.number
}.

Global Instance eq_dec : EqDecision t.
Proof. solve_decision. Defined.

(** The partial update [{ isActive: b }]. *)
Definition set_isActive (b : bool) (v : t) : t :=
  mk (versionName v) (versionCode v) (downloadUrl v) (changelog v) (fileSize v)
     (uploadedAt v) (uploadedBy v) (isCritical v) b (downloadCount v).

End Version.

(** ** Firestore *)

Module Firestore.

(** [setDoc(doc(db, "app_versions", id), data)] without merge options:
    the document is created, or replaced when it exists. *)
Definition setDoc (docs : gmap string Version.t) (id : string) (data : Version.t)
  : JS.settled (gmap string Version.t) :=
  JS.fulfilled (<[id := data]> docs).

(** [updateDoc(doc(db, "app_versions", id), fields)]: the named fields
    of an existing document are written, a missing document rejects. *)
Definition updateDoc (docs : gmap string Version.t) (id : string)
    (fields : Version.t → Version.t) : JS.settled (gmap string Version.t) :=
  match docs !! id with
  | Some _ => JS.fulfilled (alter fields id docs)
  | None => JS.rejected (JS.not_found "app_versions" id)
  end.

(** The order Firestore gives to number values: [NaN] first, then
    [-Infinity], the finite numbers, and [Infinity]. *)
Definition rank (n : JS.number) : Z :=
  match n with JS.NaN => 0 | JS.NegInf => 1 | JS.Fin _ => 2 | JS.PosInf => 3 end.

Definition number_le (a b : JS.number) : Prop :=
  match a, b with
  | JS.Fin x, JS.Fin y => (x ≤ y)%Qc
  | _, _ => rank a ≤ rank b
  end.

Definition number_lt (a b : JS.number) : Prop :=
  match a, b with
  | JS.Fin x, JS.Fin y => (x < y)%Qc
  | _, _ => rank a < rank b
  end.

Global Instance number_le_dec : RelDecision number_le.
Proof. intros [] []; simpl; apply _. Defined.

Global Instance number_lt_dec : RelDecision number_lt.
Proof. intros [] []; simpl; apply _. Defined.

(** [orderBy("versionCode", "desc")]: [a] is listed no later than [b].
    Documents with equal values are ordered by document id, in the
    direction of the query. *)
Definition before (a b : string * Version.t) : Prop :=
  if decide (Version.versionCode a.2 = Version.versionCode b.2)
  then String.le b.1 a.1
  else number_le (Version.versionCode b.2) (Version.versionCode a.2).

Global Instance before_dec : RelDecision before.
Proof. intros a b. unfold before. destruct (decide _); apply _. Defined.

(** What the update [f] of the document [i] does to a listed document. *)
Definition patch_at (i : string) (f : Version.t → Version.t)
    (doc : string * Version.t) : string * Version.t :=
  (doc.1, if decide (doc.1 = i) then f doc.2 else doc.2).

(** [query(collection(db, "app_versions"), orderBy("versionCode", "desc"))] *)
Definition query_versionCode_desc (docs : gmap string Version.t)
  : list (string * Version.t) :=
  merge_sort before (map_to_list docs).

End Firestore.

(** ** Firebase storage: what an upload task reports *)

Module Storage.

Record snapshot := { bytesTransferred : Z; totalBytes : Z }.

(** How a running task ends: with a transport error, or complete, after
    which [getDownloadURL] settles. *)
Inductive finish :=
| failed (e : JS.error)
| complete (url : JS.settled string).

(** [ref] or [uploadBytesResumable] throws at once, or the task runs:
    it reports [state_changed] snapshots and then ends. *)
Inductive task :=
| throws (e : JS.error)
| runs (state_changed : list snapshot) (f : finish).

End Storage.

(** ** What both revisions of [UpdateManager] share *)

Module UpdateManager.

(** An element of [versions]: [{ id: d.id, ...d.data() }]. *)
Record view := { id : string; data : Version.t }.

Global Instance view_eq_dec : EqDecision view.
Proof. solve_decision. Defined.

Inductive log := console_error (label : string) (e : JS.error).

(** What lies outside the component: the collection, the console and the
    alert boxes shown so far (latest last). *)
Record World := {
  docs : gmap string Version.t;
  console : list log;
  alerts : list string
}.

Definition set_docs (d : gmap string Version.t) (w : World) : World :=
  {| docs := d; console := console w; alerts := alerts w |}.

Definition console_log (l : log) (w : World) : World :=
  {| docs := docs w; console := console w ++ [l]; alerts := alerts w |}.

Definition alert (m : string) (w : World) : World :=
  {| docs := docs w; console := console w; alerts := alerts w ++ [m] |}.

(** The argument of [setVersions] in the [onSnapshot] listener. *)
Definition versionsList (d : gmap string Version.t) : list view :=
  (λ doc, {| id := doc.1; data := doc.2 |}) <$> Firestore.query_versionCode_desc d.

(** [versions.some(v => v.versionCode === parseInt(versionCode))] *)
Definition code_exists (versions : list view) (versionCode : string) : bool :=
  existsb (λ v, JS.strict_eq (Version.versionCode (data v)) (JS.parseInt versionCode))
          versions.

(** [if (cond) newErrors[key] = message] *)
Definition assign (cond : bool) (key message : string) (newErrors : gmap string string)
  : gmap string string :=
  if cond then <[key := message]> newErrors else newErrors.

Definition toggleVersionStatus (versionId : string) (currentStatus : bool) (w : World)
  : World * JS.settled unit :=
  match Firestore.updateDoc (docs w) versionId (Version.set_isActive (negb currentStatus)) with
  | JS.fulfilled d => (set_docs d w, JS.fulfilled JS.undefined)
  | JS.rejected error =>
      (console_log (console_error "Error toggling status:" error) w,
       JS.fulfilled JS.undefined)
  end.

(** [versions.length > 0 ? versions[0] : null] *)
Definition latestVersion (versions : list view) : option view :=
  match versions with
  | v :: _ => Some v
  | [] => None
  end.

End UpdateManager.

(** ** The revision that uploads the APK *)

(** A [File] of the file input. *)
Module File.
Record t := { name : string; size : Z }.
End File.

Module Upload.
Import UpdateManager.

Record State := {
  versions : list view;
  uploading : bool;
  uploadProgress : JS.number;
  selectedFile : option File.t;
  versionName : string;
  versionCode : string;
  changelog : string;
  isCritical : bool;
  errors : gmap string string
}.

Definition setVersions (l : list view) (c : State) : State :=
  {| versions := l; uploading := uploading c; uploadProgress := uploadProgress c;
     selectedFile := selectedFile c; versionName := versionName c;
     versionCode := versionCode c; changelog := changelog c;
     isCritical := isCritical c; errors := errors c |}.

Definition setUploading (b : bool) (c : State) : State :=
  {| versions := versions c; uploading := b; uploadProgress := uploadProgress c;
     selectedFile := selectedFile c; versionName := versionName c;
     versionCode := versionCode c; changelog := changelog c;
     isCritical := isCritical c; errors := errors c |}.

Definition setUploadProgress (p : JS.number) (c : State) : State :=
  {| versions := versions c; uploading := uploading c; uploadProgress := p;
     selectedFile := selectedFile c; versionName := versionName c;
     versionCode := versionCode c; changelog := changelog c;
     isCritical := isCritical c; errors := errors c |}.

Definition setErrors (e : gmap string string) (c : State) : State :=
  {| versions := versions c; uploading := uploading c; uploadProgress := uploadProgress c;
     selectedFile := selectedFile c; versionName := versionName c;
     versionCode := versionCode c; changelog := changelog c;
     isCritical := isCritical c; errors := e |}.

(** The [// Reset form] block of the completion handler. *)
Definition resetForm (c : State) : State :=
  {| versions := versions c; uploading := false; uploadProgress := JS.of_Z 0;
     selectedFile := None; versionName := ""; versionCode := ""; changelog := "";
     isCritical := false; errors := errors c |}.

(** The [onSnapshot] listener. *)
Definition onSnapshot (d : gmap string Version.t) (c : State) : State :=
  setVersions (versionsList d) c.

Definition newErrors (c : State) : gmap string string :=
  let newErrors : gmap string string := ∅ in
  let newErrors :=
    assign (bool_decide (selectedFile c = None)) "file" "Please select an APK file" newErrors in
  let newErrors :=
    assign (JS.falsy (JS.trim (versionName c))) "versionName" "Version name is required"
           newErrors in
  let newErrors :=
    assign (JS.falsy (versionCode c) || JS.le (JS.ToNumber (versionCode c)) (JS.of_Z 0))
           "versionCode" "Valid version code is required" newErrors in
  let newErrors :=
    assign (JS.falsy (JS.trim (changelog c))) "changelog" "Changelog is required" newErrors in
  assign (code_exists (versions c) (versionCode c))
         "versionCode" "Version code already exists" newErrors.

Definition validateForm (c : State) : State * bool :=
  let newErrors := newErrors c in
  (setErrors newErrors c, bool_decide (size newErrors = 0%nat)).

(** [(snapshot.bytesTransferred / snapshot.totalBytes) * 100] *)
Definition progress (snapshot : Storage.snapshot) : JS.number :=
  JS.mul (JS.div (JS.of_Z (Storage.bytesTransferred snapshot))
                 (JS.of_Z (Storage.totalBytes snapshot)))
         (JS.of_Z 100).

(** The [state_changed] observer. *)
Definition on_state_changed (c : State) (snapshot : Storage.snapshot) : State :=
  setUploadProgress (progress snapshot) c.

(** The document written by the completion handler of the render [c]. *)
Definition versionData (now : Z) (c : State) (file : File.t) (downloadUrl : string)
  : Version.t :=
  {| Version.versionName := JS.trim (versionName c);
     Version.versionCode := JS.parseInt (versionCode c);
     Version.downloadUrl := downloadUrl;
     Version.changelog := JS.trim (changelog c);
     Version.fileSize := JS.of_Z (File.size file);
     Version.uploadedAt := now;
     Version.uploadedBy := "admin";
     Version.isCritical := isCritical c;
     Version.isActive := true;
     Version.downloadCount := JS.of_Z 0 |}.

(** The completion observer.  It is an async callback outside every
    [try]: when [getDownloadURL], the read of [selectedFile.size] or
    [setDoc] fails, the rest of it does not run. *)
Definition on_complete (now : Z) (c0 : State) (url : JS.settled string)
    (cw : State * World) : State * World :=
  let '(c, w) := cw in
  match url with
  | JS.rejected _ => (c, w)
  | JS.fulfilled downloadUrl =>
      match selectedFile c0 with
      | None => (c, w)
      | Some file =>
          let versionDoc := ("version_" ++ versionCode c0)%string in
          match Firestore.setDoc (docs w) versionDoc (versionData now c0 file downloadUrl) with
          | JS.rejected _ => (c, w)
          | JS.fulfilled d =>
              (resetForm c, alert "✅ APK uploaded successfully!" (set_docs d w))
          end
      end
  end.

(** [handleUpload], run to the end of the upload task [t]; [now] is the
    value of [new Date()] when the task completes. *)
Definition handleUpload (now : Z) (t : Storage.task) (c0 : State) (w : World)
  : State * World :=
  let '(c, ok) := validateForm c0 in
  if negb ok then (c, w)
  else
    let c := setUploadProgress (JS.of_Z 0) (setUploading true c) in
    match t with
    | Storage.throws error =>
        (setUploading false c,
         alert ("❌ Error: " ++ JS.message error)
               (console_log (console_error "Error uploading APK:" error) w))
    | Storage.runs state_changed f =>
        let c := foldl on_state_changed c state_changed in
        match f with
        | Storage.failed error =>
            (setUploading false c,
             alert ("❌ Upload failed: " ++ JS.message error)
                   (console_log (console_error "Upload error:" error) w))
        | Storage.complete url => on_complete now c0 url (c, w)
        end
    end.


End Upload.

(** ** The revision that records a download link *)

Module Link.
Import UpdateManager.

Record State := {
  versions : list view;
  uploading : bool;
  downloadUrl : string;
  versionName : string;
  versionCode : string;
  changelog : string;
  fileSize : string;
  isCritical : bool;
  errors : gmap string string
}.

Definition setVersions (l : list view) (c : State) : State :=
  {| versions := l; uploading := uploading c; downloadUrl := downloadUrl c;
     versionName := versionName c; versionCode := versionCode c;
     changelog := changelog c; fileSize := fileSize c;
     isCritical := isCritical c; errors := errors c |}.

Definition setUploading (b : bool) (c : State) : State :=
  {| versions := versions c; uploading := b; downloadUrl := downloadUrl c;
     versionName := versionName c; versionCode := versionCode c;
     changelog := changelog c; fileSize := fileSize c;
     isCritical := isCritical c; errors := errors c |}.

Definition setErrors (e : gmap string string) (c : State) : State :=
  {| versions := versions c; uploading := uploading c; downloadUrl := downloadUrl c;
     versionName := versionName c; versionCode := versionCode c;
     changelog := changelog c; fileSize := fileSize c;
     isCritical := isCritical c; errors := e |}.

(** The [// Reset form] block of [handleSubmit]. *)
Definition resetForm (c : State) : State :=
  {| versions := versions c; uploading := false; downloadUrl := "";
     versionName := ""; versionCode := ""; changelog := ""; fileSize := "";
     isCritical := true; errors := errors c |}.

(** The [onSnapshot] listener. *)
Definition onSnapshot (d : gmap string Version.t) (c : State) : State :=
  setVersions (versionsList d) c.

(** [parseFloat(fileSize) * 1024 * 1024] *)
Definition fileSizeInBytes (c : State) : JS.number :=
  JS.mul (JS.mul (JS.parseFloat (fileSize c)) (JS.of_Z 1024)) (JS.of_Z 1024).

(** The document written by [handleSubmit] in the render [c]. *)
Definition versionData (now : Z) (c : State) : Version.t :=
  {| Version.versionName := JS.trim (versionName c);
     Version.versionCode := JS.parseInt (versionCode c);
     Version.downloadUrl := JS.trim (downloadUrl c);
     Version.changelog := JS.trim (changelog c);
     Version.fileSize := fileSizeInBytes c;
     Version.uploadedAt := now;
     Version.uploadedBy := "admin";
     Version.isCritical := isCritical c;
     Version.isActive := true;
     Version.downloadCount := JS.of_Z 0 |}.

Section handlers.

(** [URL_parses s] holds when [new URL(s)] does not throw. *)
Variable URL_parses : string → bool.

Definition newErrors (c : State) : gmap string string :=
  let newErrors : gmap string string := ∅ in
  let newErrors :=
    if JS.falsy (JS.trim (downloadUrl c))
    then <["downloadUrl" := "Download URL is required"]> newErrors
    else assign (negb (URL_parses (downloadUrl c)))
                "downloadUrl" "Invalid URL format" newErrors in
  let newErrors :=
    assign (JS.falsy (JS.trim (versionName c))) "versionName" "Version name is required"
           newErrors in
  let newErrors :=
    assign (JS.falsy (versionCode c) || JS.le (JS.ToNumber (versionCode c)) (JS.of_Z 0))
           "versionCode" "Valid version code is required" newErrors in
  let newErrors :=
    assign (JS.falsy (JS.trim (changelog c))) "changelog" "Changelog is required"
           newErrors in
  let newErrors :=
    assign (JS.falsy (fileSize c) || JS.le (JS.ToNumber (fileSize c)) (JS.of_Z 0))
           "fileSize" "File size is required" newErrors in
  assign (code_exists (versions c) (versionCode c))
         "versionCode" "Version code already exists" newErrors.

Definition validateForm (c : State) : State * bool :=
  let newErrors := newErrors c in
  (setErrors newErrors c, bool_decide (size newErrors = 0%nat)).

(** [handleSubmit]; [now] is the value of [new Date()]. *)
Definition handleSubmit (now : Z) (c0 : State) (w : World) : State * World :=
  let '(c, ok) := validateForm c0 in
  if negb ok then (c, w)
  else
    let c := setUploading true c in
    let versionDoc := ("version_" ++ versionCode c0)%string in
    match Firestore.setDoc (docs w) versionDoc (versionData now c0) with
    | JS.fulfilled d =>
        (resetForm c, alert "✅ Version added successfully!" (set_docs d w))
    | JS.rejected error =>
        (setUploading false c,
         alert ("❌ Error: " ++ JS.message error)
               (console_log (console_error "Error saving version:" error) w))
    end.

End handlers.

End Link.

(** ** The catalog as the specification speaks of it *)

Module Catalog.
Import UpdateManager.

Definition code (v : view) : JS.number := Version.versionCode (data v).




End Catalog.

(** ** Sample runs *)

Module Scenario.
Import UpdateManager.

(** A recogniser of some absolute URLs, for the runs below: [https://]
    followed by a host name and a path made of letters, digits, dots,
    dashes and slashes.  [new URL] accepts each of them. *)
Definition URL_parses (s : string) : bool :=
  String.prefix "https://" s &&
  match String.substring 8 (String.length s - 8) s with
  | String c r =>
      let n := JS.code c in
      ((97 <=? n) && (n <=? 122)) &&
      bool_decide (JS.span (λ c, let n := JS.code c in
                                 ((97 <=? n) && (n <=? 122)) || JS.is_digit c ||
                                 (n =? 45) || (n =? 46) || (n =? 47)) r = (r, ""%string))
  | EmptyString => false
  end.

Definition empty_world : World := {| docs := ∅; console := []; alerts := [] |}.

(** The draft of scenario A, in a freshly mounted component. *)
Definition draft_18 : Link.State :=
  {| Link.versions := []; Link.uploading := false;
     Link.downloadUrl := "https://example.com/a.apk"; Link.versionName := "1.10";
     Link.versionCode := "18"; Link.changelog := "fixes"; Link.fileSize := "1";
     Link.isCritical := true; Link.errors := ∅ |}.

Definition version_18 : Version.t :=
  {| Version.versionName := "1.10"; Version.versionCode := JS.of_Z 18;
     Version.downloadUrl := "https://example.com/a.apk"; Version.changelog := "fixes";
     Version.fileSize := JS.of_Z 1048576; Version.uploadedAt := 1000;
     Version.uploadedBy := "admin"; Version.isCritical := true;
     Version.isActive := true; Version.downloadCount := JS.of_Z 0 |}.

(** The world after scenario A, submitted at time 1000. *)
Definition world_A : World := (Link.handleSubmit URL_parses 1000 draft_18 empty_world).2.

(** Scenario B from a second session whose listener has not yet
    delivered the document of scenario A: the same code, other fields. *)
Definition draft_18_again : Link.State :=
  {| Link.versions := []; Link.uploading := false;
     Link.downloadUrl := "https://example.com/b.apk"; Link.versionName := "1.11";
     Link.versionCode := "18"; Link.changelog := "other"; Link.fileSize := "2.5";
     Link.isCritical := false; Link.errors := ∅ |}.

Definition version_18_again : Version.t :=
  {| Version.versionName := "1.11"; Version.versionCode := JS.of_Z 18;
     Version.downloadUrl := "https://example.com/b.apk"; Version.changelog := "other";
     Version.fileSize := JS.of_Z 2621440; Version.uploadedAt := 2000;
     Version.uploadedBy := "admin"; Version.isCritical := false;
     Version.isActive := true; Version.downloadCount := JS.of_Z 0 |}.



(** The second session once its listener has delivered the collection. *)
Definition draft_18_again_in_sync : Link.State :=
  Link.onSnapshot (docs world_A) draft_18_again.

(** The link form filled in with the version code 1.5. *)
Definition draft_1_5 : Link.State :=
  {| Link.versions := []; Link.uploading := false;
     Link.downloadUrl := "https://example.com/a.apk"; Link.versionName := "1.10";
     Link.versionCode := "1.5"; Link.changelog := "fixes"; Link.fileSize := "1";
     Link.isCritical := true; Link.errors := ∅ |}.

(** Scenario C: an empty changelog and the version code 0. *)
Definition draft_C : Link.State :=
  {| Link.versions := []; Link.uploading := false;
     Link.downloadUrl := "https://example.com/a.apk"; Link.versionName := "1.10";
     Link.versionCode := "0"; Link.changelog := ""; Link.fileSize := "1";
     Link.isCritical := true; Link.errors := ∅ |}.

(** A release of 1.3 MB. *)
Definition draft_19 : Link.State :=
  {| Link.versions := []; Link.uploading := false;
     Link.downloadUrl := "https://example.com/c.apk"; Link.versionName := "1.12";
     Link.versionCode := "19"; Link.changelog := "smaller"; Link.fileSize := "1.3";
     Link.isCritical := true; Link.errors := ∅ |}.

(** The upload form filled in with the version code 1.5. *)
Definition upload_draft_1_5 : Upload.State :=
  {| Upload.versions := []; Upload.uploading := false; Upload.uploadProgress := JS.of_Z 0;
     Upload.selectedFile := Some {| File.name := "app-release.apk"; File.size := 1000000 |};
     Upload.versionName := "1.10"; Upload.versionCode := "1.5";
     Upload.changelog := "fixes"; Upload.isCritical := false; Upload.errors := ∅ |}.

(** The same form with the version code 18. *)
Definition upload_draft_18 : Upload.State :=
  {| Upload.versions := []; Upload.uploading := false; Upload.uploadProgress := JS.of_Z 0;
     Upload.selectedFile := Some {| File.name := "app-release.apk"; File.size := 1000000 |};
     Upload.versionName := "1.10"; Upload.versionCode := "18";
     Upload.changelog := "fixes"; Upload.isCritical := false; Upload.errors := ∅ |}.

(** An upload of 1000000 bytes reported at 0, 500000 and 1000000 bytes,
    which completes and resolves its download URL. *)
Definition upload_snapshots : list Storage.snapshot :=
  [ {| Storage.bytesTransferred := 0; Storage.totalBytes := 1000000 |};
    {| Storage.bytesTransferred := 500000; Storage.totalBytes := 1000000 |};
    {| Storage.bytesTransferred := 1000000; Storage.totalBytes := 1000000 |} ].

Definition upload_task : Storage.task :=
  Storage.runs upload_snapshots
    (Storage.complete (JS.fulfilled "https://storage.example.com/app-release-v1.10.apk"%string)).

End Scenario.

(** ** The checks of [validateForm], field by field *)

Module Validation.
Import UpdateManager.

(** The fields whose check fails, in the order in which they are given. *)
Fixpoint violated (checks : list (string * bool)) : list string :=
  match checks with
  | [] => []
  | (field, fails) :: rest => if fails then field :: violated rest else violated rest
  end.

(** [versionCode] is empty or [<= 0], or it is a code of the snapshot. *)
Definition versionCode_fails (versions : list view) (versionCode : string) : bool :=
  JS.falsy versionCode || JS.le (JS.ToNumber versionCode) (JS.of_Z 0) ||
  code_exists versions versionCode.

(** The upload form: an APK is selected, name and changelog are not
    blank, and the version code passes. *)
Definition upload_checks (c : Upload.State) : list (string * bool) :=
  [ ("file"%string, bool_decide (Upload.selectedFile c = None));
    ("versionName"%string, JS.falsy (JS.trim (Upload.versionName c)));
    ("versionCode"%string, versionCode_fails (Upload.versions c) (Upload.versionCode c));
    ("changelog"%string, JS.falsy (JS.trim (Upload.changelog c))) ].

(** The link form: the URL is not blank and parses, name and changelog
    are not blank, the version code passes, and the size is not empty
    and not [<= 0]. *)
Definition link_checks (URL_parses : string → bool) (c : Link.State)
  : list (string * bool) :=
  [ ("downloadUrl"%string,
     JS.falsy (JS.trim (Link.downloadUrl c)) || negb (URL_parses (Link.downloadUrl c)));
    ("versionName"%string, JS.falsy (JS.trim (Link.versionName c)));
    ("versionCode"%string, versionCode_fails (Link.versions c) (Link.versionCode c));
    ("changelog"%string, JS.falsy (JS.trim (Link.changelog c)));
    ("fileSize"%string,
     JS.falsy (Link.fileSize c) || JS.le (JS.ToNumber (Link.fileSize c)) (JS.of_Z 0)) ].

End Validation.

(** ** What an upload task is expected to report *)

Module Transfer.




(** [x <= y] holds in JavaScript. *)
Definition le (x y : JS.number) : Prop := JS.le x y = true.

End Transfer.

(** ** Choosing the APK in the file input *)

Module FileInput.

(** [s.endsWith(suffix)] *)
Fixpoint endsWith (s suffix : string) : bool :=
  bool_decide (s = suffix) ||
  match s with
  | String _ r => endsWith r suffix
  | EmptyString => false
  end.

(** The two pieces of state that [handleFileSelect] sets.  An entry of
    [errors] written here is a message or [null]. *)
Record State := {
  selectedFile : option File.t;
  errors : gmap string (option string)
}.

(** [useState(null)] and [useState({})]. *)
Definition initial : State := {| selectedFile := None; errors := ∅ |}.

(** [handleFileSelect]; [files] is [e.target.files]. *)
Definition handleFileSelect (files : list File.t) (s : State) : State :=
  match files with
  | file :: _ =>
      if negb (endsWith (File.name file) ".apk") then
        {| selectedFile := selectedFile s;
           errors := <["file"%string := Some "Please select a valid APK file"%string]> (errors s) |}
      else if 100 * 1024 * 1024 <? File.size file then
        {| selectedFile := selectedFile s;
           errors := <["file"%string := Some "File size must be less than 100MB"%string]> (errors s) |}
      else
        {| selectedFile := Some file;
           errors := <["file"%string := None]> (errors s) |}
  | [] => s
  end.

(** The file input after a series of change events. *)
Definition selections (events : list (list File.t)) : State :=
  foldl (λ s files, handleFileSelect files s) initial events.

(** The two tests of [handleFileSelect] taken together. *)
Definition passes (file : File.t) : bool :=
  endsWith (File.name file) ".apk" && (File.size file <=? 104857600).

(** What [handleFileSelect] lets through. *)
Definition acceptable (file : File.t) : Prop :=
  (∃ stem, File.name file = (stem ++ ".apk")%string) ∧ File.size file ≤ 104857600.

End FileInput.

(** ** A row of the version table *)

Module Row.
Import UpdateManager.

(** [onClick={() => toggleVersionStatus(version.id, version.isActive)}] *)
Definition onClick (version : view) (w : World) : World * JS.settled unit :=
  toggleVersionStatus (id version) (Version.isActive (data version)) w.

End Row.

(** ** The login form *)

Module Login.

Record State := { username : string; password : string; error : string }.

(** [import.meta.env.VITE_FIXED_USERNAME] and [..._PASSWORD]: a string, or
    [undefined] when the variable is not set. *)
Record Env := { FIXED_USERNAME : option string; FIXED_PASSWORD : option string }.

(** Both fields are filled in and equal the configured credentials. *)
Definition granted (env : Env) (s : State) : Prop :=
  username s ≠ ""%string ∧ password s ≠ ""%string ∧
  FIXED_USERNAME env = Some (username s) ∧ FIXED_PASSWORD env = Some (password s).

Definition setError (m : string) (s : State) : State :=
  {| username := username s; password := password s; error := m |}.

(** [handleSubmit]: the next state, the next [localStorage] and the
    arguments with which [onLogin] was called. *)
Definition handleSubmit (env : Env) (s : State) (localStorage : gmap string string)
  : State * gmap string string * list bool :=
  let s := setError "" s in
  if JS.falsy (username s) || JS.falsy (password s) then
    (setError "Please enter both username and password." s, localStorage, [])
  else if bool_decide (Some (username s) = FIXED_USERNAME env) &&
          bool_decide (Some (password s) = FIXED_PASSWORD env) then
    (s, <["isLoggedIn"%string := "true"%string]> localStorage, [true])
  else
    (setError "Invalid username or password. Please try again." s, localStorage, []).

End Login.

(** ** The application shell *)

Module App.

Inductive screen := AdminPanel | LoginForm.

(** The state [isLoggedIn] and the browser's [localStorage]. *)
Record t := { isLoggedIn : bool; localStorage : gmap string string }.

(** [useState(false)] in a browser holding [storage]. *)
Definition load (storage : gmap string string) : t :=
  {| isLoggedIn := false; localStorage := storage |}.

(** The effect that runs on mount. *)
Definition onMount (a : t) : t :=
  let stored := localStorage a !! "isLoggedIn"%string in
  if bool_decide (stored = Some "true"%string)
  then {| isLoggedIn := true; localStorage := localStorage a |}
  else a.

(** Opening the page: the first render and its effect. *)
Definition open (storage : gmap string string) : t := onMount (load storage).

Definition handleLogout (a : t) : t :=
  {| isLoggedIn := false; localStorage := delete "isLoggedIn"%string (localStorage a) |}.

(** [isLoggedIn ? <AdminPanel .../> : <Login onLogin={setIsLoggedIn} />] *)
Definition render (a : t) : screen := if isLoggedIn a then AdminPanel else LoginForm.

(** Submitting the login form shown by [render]: [onLogin] is
    [setIsLoggedIn]. *)
Definition submitLogin (env : Login.Env) (s : Login.State) (a : t) : Login.State * t :=
  let '(s', storage, calls) := Login.handleSubmit env s (localStorage a) in
  (s', {| isLoggedIn := foldl (λ _ b, b) (isLoggedIn a) calls; localStorage := storage |}).

End App.

(** ** Invariants of the collection *)

Module Keys.

(** Every document is stored under [version_] followed by a string whose
    [parseInt] is its [versionCode]. *)
Definition well_keyed (d : gmap string Version.t) : Prop :=
  ∀ i v, d !! i = Some v →
         ∃ s, i = ("version_" ++ s)%string ∧ Version.versionCode v = JS.parseInt s.

(** No two documents share a [versionCode] other than [NaN]. *)
Definition unique_numbers (d : gmap string Version.t) : Prop :=
  ∀ i j v w, d !! i = Some v → d !! j = Some w →
             Version.versionCode v = Version.versionCode w →
             Version.versionCode v ≠ JS.NaN → i = j.

End Keys.

(** ** More sample runs *)

Module Sample.
Import UpdateManager.

Definition release : File.t := {| File.name := "app-release.apk"; File.size := 1000000 |}.
Definition notes : File.t := {| File.name := "notes.txt"; File.size := 10 |}.
Definition huge : File.t := {| File.name := "huge.apk"; File.size := 200000000 |}.

(** The release is chosen, then a text file, then nothing, then an APK
    that is too large. *)
Definition picks : list (list File.t) := [[release]; [notes]; []; [huge; release]].

Definition env : Login.Env :=
  {| Login.FIXED_USERNAME := Some "admin"%string;
     Login.FIXED_PASSWORD := Some "s3cret"%string |}.

Definition good_login : Login.State :=
  {| Login.username := "admin"; Login.password := "s3cret"; Login.error := "" |}.


(** The link form of such a session. *)
Definition link_draft_19 : Link.State :=
  Link.onSnapshot (docs Scenario.world_A) Scenario.draft_19.

(** The link form with the code entered as [.5], and the collection after
    it is submitted. *)
Definition draft_dot5 : Link.State :=
  {| Link.versions := []; Link.uploading := false;
     Link.downloadUrl := "https://example.com/a.apk"; Link.versionName := "0.5";
     Link.versionCode := ".5"; Link.changelog := "first"; Link.fileSize := "1";
     Link.isCritical := true; Link.errors := ∅ |}.

Definition world_dot5 : World :=
  (Link.handleSubmit Scenario.URL_parses 1000 draft_dot5 Scenario.empty_world).2.

(** A session that has received that collection and enters [.5] again. *)
Definition draft_dot5_again : Link.State :=
  Link.onSnapshot (docs world_dot5)
    {| Link.versions := []; Link.uploading := false;
       Link.downloadUrl := "https://example.com/b.apk"; Link.versionName := "0.6";
       Link.versionCode := ".5"; Link.changelog := "second"; Link.fileSize := "2";
       Link.isCritical := false; Link.errors := ∅ |}.

(** The link form with the code entered as [0.5]. *)
Definition draft_half : Link.State :=
  {| Link.versions := []; Link.uploading := false;
     Link.downloadUrl := "https://example.com/a.apk"; Link.versionName := "0.5";
     Link.versionCode := "0.5"; Link.changelog := "first"; Link.fileSize := "1";
     Link.isCritical := true; Link.errors := ∅ |}.

(** A task that fails in transit after half of the bytes. *)
Definition failing_task : Storage.task :=
  Storage.runs [ {| Storage.bytesTransferred := 500000; Storage.totalBytes := 1000000 |} ]
    (Storage.failed (JS.failure "network"%string)).

End Sample.

(** ** Properties of strings and forms used in the statements below *)

Module Text.



End Text.

Module Form.

(** The fields of the upload form that [validateForm] and the stored
    document read are the same in [c] and [c']. *)
Definition same_upload_form (c c' : Upload.State) : Prop :=
  Upload.versions c' = Upload.versions c ∧
  Upload.selectedFile c' = Upload.selectedFile c ∧
  Upload.versionName c' = Upload.versionName c ∧
  Upload.versionCode c' = Upload.versionCode c ∧
  Upload.changelog c' = Upload.changelog c ∧
  Upload.isCritical c' = Upload.isCritical c.

End Form.

(** * Properties *)

(** ** The built-ins on sample strings *)

Example ToNumber_samples :
  JS.ToNumber "18" = JS.of_Z 18 ∧ JS.ToNumber " 1.5e1 " = JS.of_Z 15 ∧
  JS.ToNumber "" = JS.of_Z 0 ∧ JS.ToNumber "0x1F" = JS.of_Z 31 ∧
  JS.ToNumber "-.5" = JS.Fin (Q2Qc (-1 # 2)) ∧ JS.ToNumber "1e" = JS.NaN ∧
  JS.ToNumber "12px" = JS.NaN ∧ JS.ToNumber "-Infinity" = JS.NegInf.
Proof. repeat split; compute_done. Qed.

Example parseInt_samples :
  JS.parseInt "18" = JS.of_Z 18 ∧ JS.parseInt "18.5" = JS.of_Z 18 ∧
  JS.parseInt "1e1" = JS.of_Z 1 ∧ JS.parseInt ".5" = JS.NaN ∧
  JS.parseInt "" = JS.NaN ∧ JS.parseInt " -0x10zz" = JS.of_Z (-16).
Proof. repeat split; compute_done. Qed.

Example parseFloat_samples :
  JS.parseFloat "2.5" = JS.Fin (Q2Qc (5 # 2)) ∧ JS.parseFloat "0x10" = JS.of_Z 0 ∧
  JS.parseFloat "1e-2abc" = JS.Fin (Q2Qc (1 # 100)) ∧ JS.parseFloat "abc" = JS.NaN ∧
  JS.parseFloat "5." = JS.of_Z 5.
Proof. repeat split; compute_done. Qed.

Example trim_samples :
  JS.trim "  1.10 " = "1.10"%string ∧ JS.trim "   " = ""%string ∧
  JS.trim " a b " = "a b"%string.
Proof. repeat split; reflexivity. Qed.

Example valid_floating_point_number_samples :
  HTML.valid_floating_point_number "18" = true ∧
  HTML.valid_floating_point_number "-.5e+3" = true ∧
  HTML.valid_floating_point_number "5." = false ∧
  HTML.valid_floating_point_number "+5" = false ∧
  HTML.valid_floating_point_number "" = false ∧
  HTML.valid_floating_point_number "0x10" = false.
Proof. repeat split; reflexivity. Qed.

(** ** The order of the query *)

Section query_order.
Import Firestore.


Lemma number_le_trans a b c : number_le a b → number_le b c → number_le a c.
Proof.
  destruct a, b, c; simpl; try lia; try done.
  intros ??. by etrans.
Qed.

Lemma number_le_antisym a b : number_le a b → number_le b a → a = b.
Proof.
  destruct a, b; simpl; try lia; try done.
  intros ??. f_equal. by apply (anti_symm Qcle).
Qed.

Lemma number_le_total a b : number_le a b ∨ number_le b a.
Proof.
  destruct a, b; simpl; try lia.
  apply (total Qcle).
Qed.


Global Instance before_total : Total before.
Proof.
  intros a b. unfold before.
  destruct (decide (Version.versionCode a.2 = Version.versionCode b.2)) as [e|n].
  - rewrite decide_True by done. destruct (total String.le a.1 b.1); auto.
  - rewrite decide_False by done.
    destruct (number_le_total (Version.versionCode a.2) (Version.versionCode b.2)); auto.
Qed.

Global Instance before_trans : Transitive before.
Proof.
  intros a b c. unfold before.
  destruct (decide (Version.versionCode a.2 = Version.versionCode b.2)) as [e1|n1];
    destruct (decide (Version.versionCode b.2 = Version.versionCode c.2)) as [e2|n2];
    destruct (decide (Version.versionCode a.2 = Version.versionCode c.2)) as [e3|n3];
    intros H1 H2; try congruence.
  all: try (by etrans).
  all: try (by rewrite e1).
  all: try (by rewrite <- e2).
  - destruct n1. rewrite e3 in *. by apply number_le_antisym.
  - eapply number_le_trans; eauto.
Qed.

(** Documents listed in either order have the same code and id. *)
Lemma before_antisym a b :
  before a b → before b a →
  Version.versionCode a.2 = Version.versionCode b.2 ∧ a.1 = b.1.
Proof.
  unfold before.
  destruct (decide (Version.versionCode a.2 = Version.versionCode b.2)) as [e|n].
  - rewrite decide_True by done. intros ??. split; [done |]. by apply (anti_symm String.le).
  - rewrite decide_False by done. intros ??. destruct n. by apply number_le_antisym.
Qed.


Lemma query_Permutation (d : gmap string Version.t) :
  query_versionCode_desc d ≡ₚ map_to_list d.
Proof. apply merge_sort_Permutation. Qed.

Lemma query_StronglySorted (d : gmap string Version.t) :
  StronglySorted before (query_versionCode_desc d).
Proof. apply StronglySorted_merge_sort; apply _. Qed.

Lemma elem_of_query (d : gmap string Version.t) i v :
  (i, v) ∈ query_versionCode_desc d ↔ d !! i = Some v.
Proof. rewrite query_Permutation. apply elem_of_map_to_list. Qed.


(** The query has one answer: a sorted list of the documents is it. *)
Lemma query_unique (d : gmap string Version.t) (l : list (string * Version.t)) :
  StronglySorted before l → l ≡ₚ map_to_list d → l = query_versionCode_desc d.
Proof.
  intros Hs Hp. apply (StronglySorted_unique_strong before); auto using query_StronglySorted.
  - intros [i1 v1] [i2 v2] H1 H2 Hb1 Hb2.
    destruct (before_antisym _ _ Hb1 Hb2) as [_ Hi]. simpl in Hi. subst i2.
    rewrite Hp in H1. apply elem_of_map_to_list in H1.
    apply elem_of_query in H2. congruence.
  - by rewrite query_Permutation.
Qed.

End query_order.

Section snapshot.
Import UpdateManager Catalog.


Lemma elem_of_versionsList (d : gmap string Version.t) i v :
  {| id := i; data := v |} ∈ versionsList d ↔ d !! i = Some v.
Proof.
  unfold versionsList. rewrite list_elem_of_fmap. split.
  - intros [[j u] [[= -> ->] H]]. by apply elem_of_query.
  - intros H. exists (i, v). split; [done | by apply elem_of_query].
Qed.




End snapshot.

Section C2.
Import UpdateManager Catalog.



(** Scenario A: the snapshot starts with the document of code 18. *)
Example scenario_A_latest :
  latestVersion (versionsList (docs Scenario.world_A))
    = Some {| id := "version_18"; data := Scenario.version_18 |}.
Proof. compute_done. Qed.


End C2.

(** ** Toggling [isActive] *)

Section toggle.
Import UpdateManager Catalog.

Lemma map_to_list_alter (d : gmap string Version.t) i f :
  map_to_list (alter f i d) ≡ₚ Firestore.patch_at i f <$> map_to_list d.
Proof.
  apply NoDup_Permutation.
  - apply NoDup_map_to_list.
  - apply (NoDup_fmap_1 fst). rewrite <- list_fmap_compose.
    rewrite (list_fmap_ext (fst ∘ Firestore.patch_at i f) fst (map_to_list d)) by done.
    apply NoDup_fst_map_to_list.
  - intros [j v]. rewrite elem_of_map_to_list, list_elem_of_fmap, lookup_alter.
    unfold Firestore.patch_at. split.
    + case_decide as Hj.
      * subst j. destruct (d !! i) as [u|] eqn:E; [|done]. intros [= <-].
        exists (i, u). rewrite decide_True by done. by rewrite elem_of_map_to_list.
      * intros H. exists (j, v). simpl. rewrite decide_False by done.
        by rewrite elem_of_map_to_list.
    + intros [[k u] [[= -> Hv] Hk]]. apply elem_of_map_to_list in Hk. simpl in *.
      case_decide; subst; rewrite ?decide_True, ?decide_False by done; by rewrite Hk.
Qed.

(** An update that keeps [versionCode] keeps every document at its
    place in the query. *)
Lemma query_alter (d : gmap string Version.t) i f :
  (∀ v, Version.versionCode (f v) = Version.versionCode v) →
  Firestore.query_versionCode_desc (alter f i d)
    = Firestore.patch_at i f <$> Firestore.query_versionCode_desc d.
Proof.
  intros Hf. symmetry. apply query_unique.
  - eapply StronglySorted_fmap; [| apply query_StronglySorted].
    intros a b. unfold Firestore.before, Firestore.patch_at. simpl.
    by repeat (case_decide; rewrite ?Hf in *; try done).
  - by rewrite map_to_list_alter, query_Permutation.
Qed.

Lemma toggleVersionStatus_found w versionId currentStatus v :
  docs w !! versionId = Some v →
  toggleVersionStatus versionId currentStatus w
    = (set_docs (alter (Version.set_isActive (negb currentStatus)) versionId (docs w)) w,
       JS.fulfilled JS.undefined).
Proof. intros H. unfold toggleVersionStatus, Firestore.updateDoc. by rewrite H. Qed.

Lemma toggleVersionStatus_missing w versionId currentStatus :
  docs w !! versionId = None →
  toggleVersionStatus versionId currentStatus w
    = (console_log (console_error "Error toggling status:"
                      (JS.not_found "app_versions" versionId)) w,
       JS.fulfilled JS.undefined).
Proof. intros H. unfold toggleVersionStatus, Firestore.updateDoc. by rewrite H. Qed.



(** C6, as amended.  [toggleVersionStatus] settles with [undefined]
    whether or not the document exists.  When it exists its [isActive]
    is written; when it does not, the collection is unchanged and the
    rejection of [updateDoc] goes to the console. *)
Theorem toggleVersionStatus_settles (w : World) versionId currentStatus :
  (toggleVersionStatus versionId currentStatus w).2 = JS.fulfilled JS.undefined ∧
  match docs w !! versionId with
  | Some v =>
      (toggleVersionStatus versionId currentStatus w).1
        = set_docs (<[versionId := Version.set_isActive (negb currentStatus) v]> (docs w)) w
  | None =>
      (toggleVersionStatus versionId currentStatus w).1
        = console_log (console_error "Error toggling status:"
                         (JS.not_found "app_versions" versionId)) w
  end.
Proof.
  destruct (docs w !! versionId) as [v|] eqn:E.
  - rewrite (toggleVersionStatus_found _ _ _ _ E). split; [done |]. simpl. f_equal.
    apply map_eq. intros j. rewrite lookup_alter, lookup_insert.
    case_decide; subst; rewrite ?decide_True, ?decide_False by done; by rewrite ?E.
  - by rewrite (toggleVersionStatus_missing _ _ _ E).
Qed.

(** C6 as stated fails: toggling a document that does not exist settles
    with [undefined], the value of a successful toggle, not with a
    failure. *)
Lemma toggleVersionStatus_missing_not_reported :
  docs Scenario.world_A !! "version_99"%string = None ∧
  (toggleVersionStatus "version_99" true Scenario.world_A).2
    = (toggleVersionStatus "version_18" true Scenario.world_A).2 ∧
  ¬ ∃ e, (toggleVersionStatus "version_99" true Scenario.world_A).2 = JS.rejected e.
Proof. split_and!; [compute_done | done |]. by intros [e ?]. Qed.

(** C7.  Writing the same status twice to an existing document leaves
    the world (collection, console and alerts) as one write leaves it,
    both calls settle with [undefined] and neither logs an error. *)
Theorem toggleVersionStatus_idempotent (w : World) versionId currentStatus v :
  docs w !! versionId = Some v →
  let once := toggleVersionStatus versionId currentStatus w in
  let twice := toggleVersionStatus versionId currentStatus once.1 in
  twice.1 = once.1 ∧
  once.2 = JS.fulfilled JS.undefined ∧ twice.2 = JS.fulfilled JS.undefined ∧
  console twice.1 = console w ∧
  (∃ v', docs twice.1 !! versionId = Some v' ∧ Version.isActive v' = negb currentStatus).
Proof.
  intros Hv once twice. subst twice once.
  rewrite (toggleVersionStatus_found _ _ _ _ Hv). simpl.
  erewrite toggleVersionStatus_found; simpl;
    [| by rewrite lookup_alter_eq, Hv].
  split_and!; try done.
  - unfold set_docs. simpl. f_equal. apply map_eq. intros j.
    destruct (decide (versionId = j)) as [<- | Hne];
      [rewrite !lookup_alter_eq | by rewrite !lookup_alter_ne].
    by destruct (docs w !! versionId).
  - eexists. by rewrite !lookup_alter_eq, Hv.
Qed.

(** Scenario E: [isActive] of version 18 set to [false] twice. *)
Lemma toggleVersionStatus_idempotent_scenario_E :
  docs Scenario.world_A !! "version_18"%string = Some Scenario.version_18 ∧
  (toggleVersionStatus "version_18" true
     (toggleVersionStatus "version_18" true Scenario.world_A).1).1
    = (toggleVersionStatus "version_18" true Scenario.world_A).1.
Proof.
  assert (docs Scenario.world_A !! "version_18"%string = Some Scenario.version_18) as H
    by compute_done.
  split; [done |].
  by apply (toggleVersionStatus_idempotent Scenario.world_A "version_18" true _ H).
Defined.

End toggle.

(** ** Values of a number input: [ToNumber] and [parseFloat] agree *)

Section number_input.
Import JS.












End number_input.

(** ** Validation *)

Section validation.
Import UpdateManager Validation.

Lemma link_newErrors_violated URL_parses (c : Link.State) :
  let newErrors := Link.newErrors URL_parses c in
  let fields := violated (link_checks URL_parses c) in
  dom newErrors = list_to_set fields ∧ size newErrors = length fields.
Proof.
  unfold Link.newErrors, link_checks, versionCode_fails, assign.
  generalize (JS.falsy (Link.versionCode c) ||
              JS.le (JS.ToNumber (Link.versionCode c)) (JS.of_Z 0)).
  generalize (JS.falsy (Link.fileSize c) ||
              JS.le (JS.ToNumber (Link.fileSize c)) (JS.of_Z 0)).
  destruct (JS.falsy (JS.trim (Link.downloadUrl c))), (URL_parses (Link.downloadUrl c)),
    (JS.falsy (JS.trim (Link.versionName c))), (JS.falsy (JS.trim (Link.changelog c))),
    (code_exists (Link.versions c) (Link.versionCode c));
    intros [] []; compute_done.
Qed.

Lemma upload_newErrors_violated (c : Upload.State) :
  let newErrors := Upload.newErrors c in
  let fields := violated (upload_checks c) in
  dom newErrors = list_to_set fields ∧ size newErrors = length fields.
Proof.
  unfold Upload.newErrors, upload_checks, versionCode_fails, assign.
  generalize (JS.falsy (Upload.versionCode c) ||
              JS.le (JS.ToNumber (Upload.versionCode c)) (JS.of_Z 0)).
  destruct (bool_decide (Upload.selectedFile c = None)),
    (JS.falsy (JS.trim (Upload.versionName c))), (JS.falsy (JS.trim (Upload.changelog c))),
    (code_exists (Upload.versions c) (Upload.versionCode c));
    intros []; compute_done.
Qed.

Lemma length_zero_nil {A} (l : list A) : length l = 0%nat ↔ l = [].
Proof. destruct l; naive_solver. Qed.


End validation.

(** ** Committing a version *)

Section commit.
Import UpdateManager Validation.

Lemma violated_nil_inv field fails rest :
  violated ((field, fails) :: rest) = [] → fails = false ∧ violated rest = [].
Proof. simpl. by destruct fails. Qed.

(** A valid link form has passed every check. *)
Lemma link_validateForm_true URL_parses (c : Link.State) :
  (Link.validateForm URL_parses c).2 = true →
  JS.falsy (JS.trim (Link.downloadUrl c)) = false ∧
  URL_parses (Link.downloadUrl c) = true ∧
  JS.falsy (JS.trim (Link.versionName c)) = false ∧
  versionCode_fails (Link.versions c) (Link.versionCode c) = false ∧
  JS.falsy (JS.trim (Link.changelog c)) = false ∧
  (JS.falsy (Link.fileSize c) || JS.le (JS.ToNumber (Link.fileSize c)) (JS.of_Z 0)) = false.
Proof.
  change ((Link.validateForm URL_parses c).2)
    with (bool_decide (size (Link.newErrors URL_parses c) = 0%nat)).
  pose proof (link_newErrors_violated URL_parses c) as H. cbv zeta in H.
  destruct H as [_ Hs]. rewrite bool_decide_eq_true, Hs, length_zero_nil.
  unfold link_checks.
  intros (H1 & (H2 & (H3 & (H4 & (H5 & _)%violated_nil_inv)%violated_nil_inv)
                   %violated_nil_inv)%violated_nil_inv)%violated_nil_inv.
  apply orb_false_iff in H1 as [H1 H1'%negb_false_iff]. done.
Qed.

(** A valid upload form has passed every check. *)
Lemma upload_validateForm_true (c : Upload.State) :
  (Upload.validateForm c).2 = true →
  (∃ file, Upload.selectedFile c = Some file) ∧
  JS.falsy (JS.trim (Upload.versionName c)) = false ∧
  versionCode_fails (Upload.versions c) (Upload.versionCode c) = false ∧
  JS.falsy (JS.trim (Upload.changelog c)) = false.
Proof.
  change ((Upload.validateForm c).2)
    with (bool_decide (size (Upload.newErrors c) = 0%nat)).
  pose proof (upload_newErrors_violated c) as H. cbv zeta in H.
  destruct H as [_ Hs]. rewrite bool_decide_eq_true, Hs, length_zero_nil.
  unfold upload_checks.
  intros (H1 & (H2 & (H3 & (H4 & _)%violated_nil_inv)%violated_nil_inv)
                   %violated_nil_inv)%violated_nil_inv.
  split_and!; try done.
  apply bool_decide_eq_false in H1. destruct (Upload.selectedFile c); [by eexists | done].
Qed.

Lemma link_handleSubmit_valid URL_parses now (c : Link.State) w :
  (Link.validateForm URL_parses c).2 = true →
  Link.handleSubmit URL_parses now c w
    = (Link.resetForm (Link.setUploading true (Link.validateForm URL_parses c).1),
       alert "✅ Version added successfully!"
             (set_docs (<[("version_" ++ Link.versionCode c)%string
                          := Link.versionData now c]> (docs w)) w)).
Proof.
  unfold Link.handleSubmit. destruct (Link.validateForm URL_parses c) as [c' ok].
  simpl. by intros ->.
Qed.

Lemma link_handleSubmit_invalid URL_parses now (c : Link.State) w :
  (Link.validateForm URL_parses c).2 = false →
  Link.handleSubmit URL_parses now c w = ((Link.validateForm URL_parses c).1, w).
Proof.
  unfold Link.handleSubmit. destruct (Link.validateForm URL_parses c) as [c' ok].
  simpl. by intros ->.
Qed.

Lemma upload_handleUpload_valid now state_changed downloadUrl (c : Upload.State) w file :
  (Upload.validateForm c).2 = true →
  Upload.selectedFile c = Some file →
  Upload.handleUpload now
    (Storage.runs state_changed (Storage.complete (JS.fulfilled downloadUrl))) c w
    = (Upload.resetForm
         (foldl Upload.on_state_changed
            (Upload.setUploadProgress (JS.of_Z 0)
               (Upload.setUploading true (Upload.validateForm c).1)) state_changed),
       alert "✅ APK uploaded successfully!"
             (set_docs (<[("version_" ++ Upload.versionCode c)%string
                          := Upload.versionData now c file downloadUrl]> (docs w)) w)).
Proof.
  unfold Upload.handleUpload. destruct (Upload.validateForm c) as [c' ok].
  simpl. intros -> Hf. simpl. by rewrite Hf.
Qed.

Lemma upload_handleUpload_invalid now t (c : Upload.State) w :
  (Upload.validateForm c).2 = false →
  Upload.handleUpload now t c w = ((Upload.validateForm c).1, w).
Proof.
  unfold Upload.handleUpload. destruct (Upload.validateForm c) as [c' ok].
  simpl. by intros ->.
Qed.

Lemma size_zero_lookup (m : gmap string string) k x :
  m !! k = Some x → bool_decide (size m = 0%nat) = false.
Proof.
  intros H. apply bool_decide_eq_false. intros ->%map_size_empty_iff.
  by rewrite lookup_empty in H.
Qed.

(** A code of the collection is found in the snapshot of the collection. *)
Lemma code_exists_in_sync (d : gmap string Version.t) i v versionCode :
  d !! i = Some v →
  Version.versionCode v = JS.parseInt versionCode →
  JS.parseInt versionCode ≠ JS.NaN →
  code_exists (versionsList d) versionCode = true.
Proof.
  intros Hi Hc Hn. unfold code_exists. apply existsb_exists.
  exists {| id := i; data := v |}. split.
  - apply list_elem_of_In. by apply elem_of_versionsList.
  - simpl. rewrite Hc. unfold JS.strict_eq.
    destruct (JS.parseInt versionCode); try done; by apply bool_decide_eq_true.
Qed.

(** C1, as amended.  A create is refused only by [validateForm], on the
    snapshot the component holds: when a version of that snapshot has
    the code [parseInt(versionCode)], the form is rejected with
    [Version code already exists] and nothing is written; and the
    snapshot of a collection holds every code stored in it.  The write
    itself is unconditional: once the form is valid, [setDoc] stores
    the new document under [version_{versionCode}] whether or not a
    document is stored there. *)
Theorem create_guarded_by_snapshot_only :
  (∀ URL_parses now (c : Link.State) w,
     (code_exists (Link.versions c) (Link.versionCode c) = true →
      Link.newErrors URL_parses c !! "versionCode"%string
        = Some "Version code already exists"%string ∧
      (Link.validateForm URL_parses c).2 = false ∧
      (Link.handleSubmit URL_parses now c w).2 = w) ∧
     ((Link.validateForm URL_parses c).2 = true →
      docs (Link.handleSubmit URL_parses now c w).2
        = <[("version_" ++ Link.versionCode c)%string := Link.versionData now c]> (docs w))) ∧
  (∀ now t (c : Upload.State) w,
     (code_exists (Upload.versions c) (Upload.versionCode c) = true →
      Upload.newErrors c !! "versionCode"%string
        = Some "Version code already exists"%string ∧
      (Upload.validateForm c).2 = false ∧
      (Upload.handleUpload now t c w).2 = w) ∧
     ((Upload.validateForm c).2 = true →
      ∀ state_changed downloadUrl,
        t = Storage.runs state_changed (Storage.complete (JS.fulfilled downloadUrl)) →
        ∃ file, Upload.selectedFile c = Some file ∧
        docs (Upload.handleUpload now t c w).2
          = <[("version_" ++ Upload.versionCode c)%string
              := Upload.versionData now c file downloadUrl]> (docs w))) ∧
  (∀ (d : gmap string Version.t) i v versionCode,
     d !! i = Some v →
     Version.versionCode v = JS.parseInt versionCode →
     JS.parseInt versionCode ≠ JS.NaN →
     code_exists (versionsList d) versionCode = true).
Proof.
  split_and!.
  - intros URL_parses now c w. split.
    + intros He.
      assert (Link.newErrors URL_parses c !! "versionCode"%string
              = Some "Version code already exists"%string) as Hl.
      { unfold Link.newErrors, assign at 1. rewrite He. apply lookup_insert_eq. }
      assert ((Link.validateForm URL_parses c).2 = false) as Hv
        by (by eapply size_zero_lookup).
      split_and!; [done | done |]. by rewrite link_handleSubmit_invalid.
    + intros Hv. by rewrite link_handleSubmit_valid.
  - intros now t c w. split.
    + intros He.
      assert (Upload.newErrors c !! "versionCode"%string
              = Some "Version code already exists"%string) as Hl.
      { unfold Upload.newErrors, assign at 1. rewrite He. apply lookup_insert_eq. }
      assert ((Upload.validateForm c).2 = false) as Hv
        by (by eapply size_zero_lookup).
      split_and!; [done | done |]. by rewrite upload_handleUpload_invalid.
    + intros Hv state_changed downloadUrl ->.
      destruct (upload_validateForm_true c Hv) as [[file Hf] _].
      exists file. split; [done |]. by erewrite upload_handleUpload_valid.
  - apply code_exists_in_sync.
Qed.

End commit.

Section committed_record.
Import UpdateManager Validation.



End committed_record.

Section file_size.
Import UpdateManager Validation.







End file_size.

(** ** Upload progress *)

Section progress.
Import UpdateManager Transfer.













End progress.

(** ** The claims on concrete runs *)

Section runs.
Import UpdateManager Validation.

(** C1 as stated fails: the collection holds version 18 and a session
    that has not yet received it submits the code 18 with other fields;
    the commit succeeds and replaces the document. *)
Lemma commit_overwrites_existing_version :
  docs Scenario.world_A !! "version_18"%string = Some Scenario.version_18 ∧
  docs (Link.handleSubmit Scenario.URL_parses 2000 Scenario.draft_18_again
          Scenario.world_A).2 !! "version_18"%string = Some Scenario.version_18_again ∧
  Scenario.version_18_again ≠ Scenario.version_18 ∧
  alerts (Link.handleSubmit Scenario.URL_parses 2000 Scenario.draft_18_again
            Scenario.world_A).2
    = ["✅ Version added successfully!"%string; "✅ Version added successfully!"%string] ∧
  console (Link.handleSubmit Scenario.URL_parses 2000 Scenario.draft_18_again
             Scenario.world_A).2 = [].
Proof. split_and!; compute_done. Qed.

(** The amended C1 at scenario B with the snapshot delivered: the form
    is rejected and the collection keeps the original document. *)
Lemma create_guarded_by_snapshot_only_scenario_B :
  code_exists (Link.versions Scenario.draft_18_again_in_sync)
              (Link.versionCode Scenario.draft_18_again_in_sync) = true ∧
  (Link.handleSubmit Scenario.URL_parses 2000 Scenario.draft_18_again_in_sync
     Scenario.world_A).2 = Scenario.world_A.
Proof.
  assert (code_exists (Link.versions Scenario.draft_18_again_in_sync)
                      (Link.versionCode Scenario.draft_18_again_in_sync) = true) as H
    by (vm_compute; reflexivity).
  split; [exact H |].
  destruct create_guarded_by_snapshot_only as [Hlink _].
  destruct (Hlink Scenario.URL_parses 2000 Scenario.draft_18_again_in_sync
              Scenario.world_A) as [Hguard _].
  exact (proj2 (proj2 (Hguard H))).
Defined.


(** Scenario C: the two messages. *)
Example scenario_C_messages :
  Link.newErrors Scenario.URL_parses Scenario.draft_C
    = {[ "changelog"%string := "Changelog is required"%string;
         "versionCode"%string := "Valid version code is required"%string ]}.
Proof. compute_done. Qed.

(** C4 fails on the code: the version code 1.5 passes [validateForm] in
    both forms, without an entry for [versionCode], and is committed
    under [version_1.5] with the code 1. *)
Lemma fractional_versionCode_accepted :
  Upload.newErrors Scenario.upload_draft_1_5 !! "versionCode"%string = None ∧
  (Upload.validateForm Scenario.upload_draft_1_5).2 = true ∧
  Version.versionCode
    <$> docs (Upload.handleUpload 1000 Scenario.upload_task Scenario.upload_draft_1_5
                Scenario.empty_world).2 !! "version_1.5"%string = Some (JS.of_Z 1) ∧
  Link.newErrors Scenario.URL_parses Scenario.draft_1_5 !! "versionCode"%string = None ∧
  (Link.validateForm Scenario.URL_parses Scenario.draft_1_5).2 = true ∧
  Version.versionCode
    <$> docs (Link.handleSubmit Scenario.URL_parses 1000 Scenario.draft_1_5
                Scenario.empty_world).2 !! "version_1.5"%string = Some (JS.of_Z 1).
Proof. split_and!; compute_done. Qed.

(** What [validateForm] does check of the version code: an empty one and
    one that is [<= 0] are reported, in both forms. *)
Lemma versionCode_empty_or_nonpositive_reported URL_parses :
  (∀ c : Link.State,
     Link.versionCode c = ""%string ∨
     JS.le (JS.ToNumber (Link.versionCode c)) (JS.of_Z 0) = true →
     is_Some (Link.newErrors URL_parses c !! "versionCode"%string)) ∧
  (∀ c : Upload.State,
     Upload.versionCode c = ""%string ∨
     JS.le (JS.ToNumber (Upload.versionCode c)) (JS.of_Z 0) = true →
     is_Some (Upload.newErrors c !! "versionCode"%string)).
Proof.
  split; intros c H.
  - assert ("versionCode"%string ∈ dom (Link.newErrors URL_parses c)) as Hd;
      [| by apply elem_of_dom in Hd].
    pose proof (link_newErrors_violated URL_parses c) as Hv. cbv zeta in Hv.
    destruct Hv as [-> _]. unfold link_checks, versionCode_fails.
    assert (JS.falsy (Link.versionCode c) ||
            JS.le (JS.ToNumber (Link.versionCode c)) (JS.of_Z 0) = true) as ->.
    { destruct H as [-> | ->]; [done | by rewrite orb_true_r]. }
    simpl.
    repeat match goal with |- context [if ?b then _ else _] => destruct b end;
      set_solver.
  - assert ("versionCode"%string ∈ dom (Upload.newErrors c)) as Hd;
      [| by apply elem_of_dom in Hd].
    pose proof (upload_newErrors_violated c) as Hv. cbv zeta in Hv.
    destruct Hv as [-> _]. unfold upload_checks, versionCode_fails.
    assert (JS.falsy (Upload.versionCode c) ||
            JS.le (JS.ToNumber (Upload.versionCode c)) (JS.of_Z 0) = true) as ->.
    { destruct H as [-> | ->]; [done | by rewrite orb_true_r]. }
    simpl.
    repeat match goal with |- context [if ?b then _ else _] => destruct b end;
      set_solver.
Qed.

End runs.

(** ** Choosing the APK *)

Section file_input.
Import UpdateManager FileInput.

Lemma endsWith_spec s suffix : endsWith s suffix = true ↔ ∃ stem, s = (stem ++ suffix)%string.
Proof.
  induction s as [|c r IH]; simpl.
  - rewrite orb_false_r, bool_decide_eq_true. split.
    + intros <-. by exists ""%string.
    + intros [[|c p] H]; simpl in H; [done | discriminate].
  - rewrite orb_true_iff, bool_decide_eq_true, IH. split.
    + intros [<- | [p ->]]; [by exists ""%string | by exists (String c p)].
    + intros [[|c' p] H]; simpl in H; [by left |].
      injection H as <- ->. right. by eexists.
Qed.

Lemma passes_acceptable file : passes file = true ↔ acceptable file.
Proof.
  unfold passes, acceptable. by rewrite andb_true_iff, endsWith_spec, Z.leb_le.
Qed.

Lemma handleFileSelect_step files s :
  handleFileSelect files s =
  match head files with
  | None => s
  | Some file =>
      if passes file
      then {| selectedFile := Some file; errors := <["file"%string := None]> (errors s) |}
      else {| selectedFile := selectedFile s;
              errors := <["file"%string :=
                          Some (if endsWith (File.name file) ".apk"
                                then "File size must be less than 100MB"%string
                                else "Please select a valid APK file"%string)]> (errors s) |}
  end.
Proof.
  destruct files as [|file files]; [done |]. simpl. unfold passes.
  destruct (endsWith (File.name file) ".apk"); simpl; [|done].
  change (100 * 1024 * 1024) with 104857600.
  rewrite Z.ltb_antisym. by destruct (File.size file <=? 104857600).
Qed.

Lemma selections_snoc events files :
  selections (events ++ [files]) = handleFileSelect files (selections events).
Proof. unfold selections. by rewrite foldl_app. Qed.

Lemma latest_acceptable_selection (events : list (list File.t)) :
  selectedFile (selections events)
    = last (filter (λ file, passes file = true) (omap head events)) ∧
  errors (selections events) !! "file"%string
    = (λ file, if passes file then None
               else Some (if endsWith (File.name file) ".apk"
                          then "File size must be less than 100MB"%string
                          else "Please select a valid APK file"%string))
      <$> last (omap head events).
Proof.
  induction events as [|files events [IHs IHe]] using rev_ind; [done |].
  rewrite selections_snoc, handleFileSelect_step, omap_app, filter_app, !last_app. simpl.
  destruct (head files) as [file|]; simpl; [|done].
  rewrite filter_cons. destruct (passes file) eqn:Hp.
  - rewrite decide_True by done. simpl. by rewrite lookup_insert_eq.
  - rewrite decide_False by done. simpl. rewrite lookup_insert_eq. split; [|done].
    rewrite IHs. by destruct (last _).
Qed.

(** X1.  After any series of change events the selected file is the
    first file of the latest event that offered an acceptable one: picks
    that are rejected, and events without a file, leave the earlier
    selection in place.  The [file] entry of [errors] speaks of the latest
    event that offered a file: [null] when it was accepted, else the
    message of the first test it failed. *)
Theorem selection_is_latest_acceptable (events : list (list File.t)) :
  selectedFile (selections events)
    = last (filter (λ file, passes file = true) (omap head events)) ∧
  errors (selections events) !! "file"%string
    = (λ file, if passes file then None
               else Some (if endsWith (File.name file) ".apk"
                          then "File size must be less than 100MB"%string
                          else "Please select a valid APK file"%string))
      <$> last (omap head events).
Proof. apply latest_acceptable_selection. Qed.

(** X2.  Whatever is offered to the file input, a selected file has a
    name that ends in [.apk] and at most 100 MiB, and it is a file that
    was offered first in some event. *)
Theorem selected_file_is_acceptable (events : list (list File.t)) (file : File.t) :
  selectedFile (selections events) = Some file →
  acceptable file ∧ ∃ files, files ∈ events ∧ head files = Some file.
Proof.
  destruct (latest_acceptable_selection events) as [-> _].
  intros [Hp [files Hf]%list_elem_of_omap]%last_Some_elem_of%list_elem_of_filter.
  split; [by apply passes_acceptable | by exists files].
Qed.

End file_input.

Section file_input_runs.
Import UpdateManager FileInput.

(** The theorem at the sample picks: the release stays selected. *)
Lemma selected_file_is_acceptable_sample :
  selectedFile (selections Sample.picks) = Some Sample.release ∧
  acceptable Sample.release.
Proof.
  assert (selectedFile (selections Sample.picks) = Some Sample.release) as H
    by (vm_compute; reflexivity).
  split; [exact H |].
  exact (proj1 (selected_file_is_acceptable Sample.picks Sample.release H)).
Defined.

(** X3.  An upload started with the file the input has selected stores
    the size of that file, which is at most 100 MiB. *)
Theorem uploaded_fileSize_bounded (events : list (list File.t)) now state_changed downloadUrl
    (c : Upload.State) (w : World) :
  Upload.selectedFile c = selectedFile (selections events) →
  (Upload.validateForm c).2 = true →
  ∃ r file,
    docs (Upload.handleUpload now
            (Storage.runs state_changed (Storage.complete (JS.fulfilled downloadUrl)))
            c w).2 !! ("version_" ++ Upload.versionCode c)%string = Some r ∧
    selectedFile (selections events) = Some file ∧
    Version.fileSize r = JS.of_Z (File.size file) ∧
    File.size file ≤ 104857600.
Proof.
  intros Hsel Hv.
  destruct (upload_validateForm_true c Hv) as [[file Hf] _].
  erewrite upload_handleUpload_valid by done. simpl.
  eexists _, file. rewrite lookup_insert_eq, <- Hsel. split_and!; [done | done | done |].
  rewrite Hsel in Hf.
  destruct (latest_acceptable_selection events) as [Hl _]. rewrite Hl in Hf.
  apply last_Some_elem_of, list_elem_of_filter in Hf as [Hp _].
  by apply passes_acceptable in Hp as [_ ?].
Qed.

(** The theorem at the sample picks and the upload form of version 18. *)
Lemma uploaded_fileSize_bounded_sample :
  Upload.selectedFile Scenario.upload_draft_18 = selectedFile (selections Sample.picks) ∧
  (Upload.validateForm Scenario.upload_draft_18).2 = true ∧
  ∃ r, docs (Upload.handleUpload 1000 Scenario.upload_task Scenario.upload_draft_18
               Scenario.empty_world).2 !! "version_18"%string = Some r ∧
       Version.fileSize r = JS.of_Z 1000000.
Proof.
  assert (Upload.selectedFile Scenario.upload_draft_18
          = selectedFile (selections Sample.picks)) as H1 by (vm_compute; reflexivity).
  assert ((Upload.validateForm Scenario.upload_draft_18).2 = true) as H2
    by (vm_compute; reflexivity).
  split_and!; [exact H1 | exact H2 |].
  destruct (uploaded_fileSize_bounded Sample.picks 1000 Scenario.upload_snapshots
              "https://storage.example.com/app-release-v1.10.apk"
              Scenario.upload_draft_18 Scenario.empty_world H1 H2)
    as (r & file & Hr & Hfile & Hsize & _).
  exists r. split; [exact Hr |].
  rewrite Hsize. revert Hfile. vm_compute. by intros [= <-].
Defined.

End file_input_runs.

(** ** Logging in and out *)

Section login.

Lemma login_handleSubmit_granted env s (localStorage : gmap string string) :
  Login.granted env s →
  Login.handleSubmit env s localStorage
    = (Login.setError "" s, <["isLoggedIn"%string := "true"%string]> localStorage, [true]).
Proof.
  intros (Hu & Hp & HU & HP). unfold Login.handleSubmit, JS.falsy. simpl.
  repeat (case_bool_decide; simpl); congruence.
Qed.

Lemma login_handleSubmit_refused env s (localStorage : gmap string string) :
  ¬ Login.granted env s →
  ∃ m, m ≠ ""%string ∧
       Login.handleSubmit env s localStorage = (Login.setError m s, localStorage, []).
Proof.
  intros Hn. unfold Login.handleSubmit, JS.falsy. simpl.
  assert (∀ (m : string) (x : Login.State * gmap string string * list bool),
            m ≠ ""%string → x = (Login.setError m s, localStorage, []) →
            ∃ m, m ≠ ""%string ∧ x = (Login.setError m s, localStorage, [])) as Hex
    by eauto.
  case_bool_decide as Hu; simpl;
    [by apply (Hex "Please enter both username and password."%string) |].
  case_bool_decide as Hp; simpl;
    [by apply (Hex "Please enter both username and password."%string) |].
  case_bool_decide as HU; simpl; [case_bool_decide as HP; simpl |];
    try (by apply (Hex "Invalid username or password. Please try again."%string)).
  destruct Hn. by split_and!.
Qed.

(** X4.  [handleSubmit] of the login form calls [onLogin(true)] and writes
    [isLoggedIn = "true"] exactly when both fields are filled in and equal
    the configured credentials.  In every other case it calls nothing,
    leaves [localStorage] as it is and shows a message.  The two fields
    are never changed.  With a credential that is not configured, or
    configured as the empty string, nobody is let in. *)
Theorem login_handleSubmit_grants_iff (env : Login.Env) (s : Login.State)
    (localStorage : gmap string string) :
  let '(s', storage, calls) := Login.handleSubmit env s localStorage in
  Login.username s' = Login.username s ∧ Login.password s' = Login.password s ∧
  (Login.granted env s →
   calls = [true] ∧ storage = <["isLoggedIn"%string := "true"%string]> localStorage ∧
   Login.error s' = ""%string) ∧
  (¬ Login.granted env s →
   calls = [] ∧ storage = localStorage ∧ Login.error s' ≠ ""%string) ∧
  (Login.FIXED_USERNAME env = None ∨ Login.FIXED_USERNAME env = Some ""%string ∨
   Login.FIXED_PASSWORD env = None ∨ Login.FIXED_PASSWORD env = Some ""%string →
   calls = []).
Proof.
  destruct (decide (Login.granted env s)) as [Hg | Hn].
  - rewrite login_handleSubmit_granted by done. simpl. split_and!; try done.
    destruct Hg as (Hu & Hp & HU & HP). intros [H|[H|[H|H]]]; congruence.
  - destruct (login_handleSubmit_refused env s localStorage Hn) as (m & Hm & ->).
    simpl. by split_and!.
Qed.

(** The theorem at the sample credentials. *)
Lemma login_handleSubmit_grants_iff_sample :
  Login.granted Sample.env Sample.good_login ∧
  (Login.handleSubmit Sample.env Sample.good_login ∅).1.2
    = {[ "isLoggedIn"%string := "true"%string ]}.
Proof.
  assert (Login.granted Sample.env Sample.good_login) as Hg by (by split_and!).
  split; [exact Hg |].
  pose proof (login_handleSubmit_grants_iff Sample.env Sample.good_login ∅) as H.
  destruct (Login.handleSubmit Sample.env Sample.good_login ∅) as [[s' storage] calls].
  destruct H as (_ & _ & Hgranted & _).
  destruct (Hgranted Hg) as (_ & -> & _). reflexivity.
Defined.

Lemma open_isLoggedIn (storage : gmap string string) :
  App.isLoggedIn (App.open storage)
    = bool_decide (storage !! "isLoggedIn"%string = Some "true"%string).
Proof. unfold App.open, App.onMount. simpl. by case_bool_decide. Qed.

(** X5.  The session survives a reload and ends with a logout.  Opening
    the page shows the admin panel exactly when [localStorage] holds
    [isLoggedIn = "true"], whoever wrote it.  After a granted login the
    panel is shown, at once and after reopening the page with the storage
    left behind; a refused login changes neither the screen nor the
    storage.  After [handleLogout] the login form is shown, at once and
    after reopening; the logout removes the key [isLoggedIn] and touches
    no other key. *)
Theorem session_survives_reload_until_logout :
  (∀ storage : gmap string string,
     App.render (App.open storage) = App.AdminPanel ↔
     storage !! "isLoggedIn"%string = Some "true"%string) ∧
  (∀ env s a,
     Login.granted env s →
     App.render (App.submitLogin env s a).2 = App.AdminPanel ∧
     App.render (App.open (App.localStorage (App.submitLogin env s a).2))
       = App.AdminPanel) ∧
  (∀ env s a, ¬ Login.granted env s → (App.submitLogin env s a).2 = a) ∧
  (∀ a,
     App.render (App.handleLogout a) = App.LoginForm ∧
     App.render (App.open (App.localStorage (App.handleLogout a))) = App.LoginForm ∧
     App.localStorage (App.handleLogout a) !! "isLoggedIn"%string = None ∧
     ∀ k, k ≠ "isLoggedIn"%string →
          App.localStorage (App.handleLogout a) !! k = App.localStorage a !! k).
Proof.
  split_and!.
  - intros storage. unfold App.render. rewrite open_isLoggedIn.
    case_bool_decide; naive_solver.
  - intros env s a Hg. unfold App.submitLogin.
    rewrite login_handleSubmit_granted by done. simpl. split; [done |].
    unfold App.render. rewrite open_isLoggedIn. by rewrite lookup_insert_eq.
  - intros env s a Hn. unfold App.submitLogin.
    destruct (login_handleSubmit_refused env s (App.localStorage a) Hn) as (m & _ & ->).
    simpl. by destruct a.
  - intros a. unfold App.render. rewrite open_isLoggedIn. simpl.
    rewrite lookup_delete_eq. split_and!; [done | done | done |].
    intros k Hk. by rewrite lookup_delete_ne.
Qed.

(** The theorem at the sample credentials, from an empty storage. *)
Lemma session_survives_reload_until_logout_sample :
  Login.granted Sample.env Sample.good_login ∧
  App.render (App.open (App.localStorage
    (App.submitLogin Sample.env Sample.good_login (App.open ∅)).2)) = App.AdminPanel.
Proof.
  assert (Login.granted Sample.env Sample.good_login) as Hg by (by split_and!).
  split; [exact Hg |].
  destruct session_survives_reload_until_logout as (_ & Hlogin & _).
  exact (proj2 (Hlogin Sample.env Sample.good_login (App.open ∅) Hg)).
Defined.

End login.

(** ** Invariants of the collection *)

Section keys.
Import UpdateManager Validation Keys.

(** What [handleSubmit] leaves in the collection. *)
Lemma link_handleSubmit_docs URL_parses now (c : Link.State) w :
  docs (Link.handleSubmit URL_parses now c w).2
    = if (Link.validateForm URL_parses c).2
      then <[("version_" ++ Link.versionCode c)%string := Link.versionData now c]> (docs w)
      else docs w.
Proof.
  destruct (Link.validateForm URL_parses c).2 eqn:Hv.
  - by rewrite link_handleSubmit_valid.
  - by rewrite link_handleSubmit_invalid.
Qed.

(** What [handleUpload] leaves in the collection. *)
Lemma upload_handleUpload_docs now t (c : Upload.State) w :
  docs (Upload.handleUpload now t c w).2
    = match Upload.selectedFile c, t with
      | Some file, Storage.runs _ (Storage.complete (JS.fulfilled downloadUrl)) =>
          if (Upload.validateForm c).2
          then <[("version_" ++ Upload.versionCode c)%string
                 := Upload.versionData now c file downloadUrl]> (docs w)
          else docs w
      | _, _ => docs w
      end.
Proof.
  unfold Upload.handleUpload.
  destruct (Upload.validateForm c) as [c' ok] eqn:Hv. simpl.
  destruct (Upload.selectedFile c) as [file|] eqn:Hf;
    destruct ok; simpl;
    destruct t as [e | l [e | [url | e]]]; simpl; rewrite ?Hf; done.
Qed.

Lemma well_keyed_insert (d : gmap string Version.t) s v :
  well_keyed d → Version.versionCode v = JS.parseInt s →
  well_keyed (<[("version_" ++ s)%string := v]> d).
Proof.
  intros Hd Hv i u [[<- <-] | [_ Hi]]%lookup_insert_Some; [by exists s | by apply Hd].
Qed.

(** X6.  Every document the component has written is stored under
    [version_] followed by a string whose [parseInt] is its
    [versionCode]: this holds of the empty collection and is kept by
    [handleSubmit], by [handleUpload] however the task ends, and by
    [toggleVersionStatus]. *)
Theorem well_keyed_kept :
  well_keyed ∅ ∧
  (∀ URL_parses now (c : Link.State) w,
     well_keyed (docs w) → well_keyed (docs (Link.handleSubmit URL_parses now c w).2)) ∧
  (∀ now t (c : Upload.State) w,
     well_keyed (docs w) → well_keyed (docs (Upload.handleUpload now t c w).2)) ∧
  (∀ versionId currentStatus w,
     well_keyed (docs w) →
     well_keyed (docs (toggleVersionStatus versionId currentStatus w).1)).
Proof.
  split_and!.
  - intros i v. by rewrite lookup_empty.
  - intros URL_parses now c w Hd. rewrite link_handleSubmit_docs.
    destruct (Link.validateForm URL_parses c).2; [by apply well_keyed_insert | done].
  - intros now t c w Hd. rewrite upload_handleUpload_docs.
    destruct (Upload.selectedFile c), t as [e | l [e | [url | e]]]; try done.
    destruct (Upload.validateForm c).2; [by apply well_keyed_insert | done].
  - intros versionId currentStatus w Hd.
    destruct (docs w !! versionId) as [v|] eqn:E.
    + rewrite (toggleVersionStatus_found _ _ _ _ E). simpl.
      intros i u [[_ (u' & Hu & ->)] | [_ Hu]]%lookup_alter_Some; [| by apply Hd].
      destruct (Hd i u' Hu) as (s & -> & Hs). by exists s.
    + by rewrite (toggleVersionStatus_missing _ _ _ E).
Qed.

(** The theorem at scenario A. *)
Lemma well_keyed_kept_sample : well_keyed (docs Scenario.world_A).
Proof.
  destruct well_keyed_kept as (Hempty & Hlink & _).
  exact (Hlink Scenario.URL_parses 1000 Scenario.draft_18 Scenario.empty_world Hempty).
Defined.

Lemma version_key_inj s1 s2 :
  ("version_" ++ s1)%string = ("version_" ++ s2)%string → s1 = s2.
Proof. apply (inj (String.app "version_")). Qed.

(** With the snapshot of the collection in hand, a valid form whose code
    is a number names a key that is free. *)
Lemma in_sync_key_is_free (d : gmap string Version.t) versionCode :
  well_keyed d →
  versionCode_fails (versionsList d) versionCode = false →
  JS.parseInt versionCode ≠ JS.NaN →
  d !! ("version_" ++ versionCode)%string = None.
Proof.
  intros Hd Hf Hn. destruct (d !! _) as [v|] eqn:E; [|done].
  destruct (Hd _ _ E) as (s & ->%version_key_inj & Hs).
  unfold versionCode_fails in Hf. apply orb_false_iff in Hf as [_ Hf].
  by rewrite (code_exists_in_sync d _ v s E Hs Hn) in Hf.
Qed.

(** X7.  A session that holds the snapshot of the collection never
    overwrites: when its form is valid and [parseInt] of the code is a
    number, the key [version_{versionCode}] is free, so the commit adds
    one document and every document of the collection stays as it is.
    This holds for the link form, and for the upload form however the
    task ends. *)
Theorem in_sync_create_never_overwrites :
  (∀ URL_parses now (c : Link.State) w,
     well_keyed (docs w) →
     Link.versions c = versionsList (docs w) →
     (Link.validateForm URL_parses c).2 = true →
     JS.parseInt (Link.versionCode c) ≠ JS.NaN →
     docs w !! ("version_" ++ Link.versionCode c)%string = None ∧
     ∀ i v, docs w !! i = Some v →
            docs (Link.handleSubmit URL_parses now c w).2 !! i = Some v) ∧
  (∀ now t (c : Upload.State) w,
     well_keyed (docs w) →
     Upload.versions c = versionsList (docs w) →
     (Upload.validateForm c).2 = true →
     JS.parseInt (Upload.versionCode c) ≠ JS.NaN →
     docs w !! ("version_" ++ Upload.versionCode c)%string = None ∧
     ∀ i v, docs w !! i = Some v →
            docs (Upload.handleUpload now t c w).2 !! i = Some v).
Proof.
  split.
  - intros URL_parses now c w Hd Hsync Hv Hn.
    destruct (link_validateForm_true _ _ Hv) as (_ & _ & _ & Hf & _).
    rewrite Hsync in Hf. pose proof (in_sync_key_is_free _ _ Hd Hf Hn) as Hfree.
    split; [done |]. intros i v Hi. rewrite link_handleSubmit_docs, Hv.
    rewrite lookup_insert_ne; [done | congruence].
  - intros now t c w Hd Hsync Hv Hn.
    destruct (upload_validateForm_true _ Hv) as (_ & _ & Hf & _).
    rewrite Hsync in Hf. pose proof (in_sync_key_is_free _ _ Hd Hf Hn) as Hfree.
    split; [done |]. intros i v Hi. rewrite upload_handleUpload_docs, Hv.
    destruct (Upload.selectedFile c), t as [e | l [e | [url | e]]]; try done.
    rewrite lookup_insert_ne; [done | congruence].
Qed.

(** The theorem at a session that has received version 18 and adds 19. *)
Lemma in_sync_create_never_overwrites_sample :
  well_keyed (docs Scenario.world_A) ∧
  docs (Link.handleSubmit Scenario.URL_parses 3000 Sample.link_draft_19 Scenario.world_A).2
    !! "version_18"%string = Some Scenario.version_18.
Proof.
  assert (well_keyed (docs Scenario.world_A)) as Hd.
  { change (docs Scenario.world_A)
      with (<[("version_" ++ "18")%string := Link.versionData 1000 Scenario.draft_18]>
              (∅ : gmap string Version.t)).
    apply well_keyed_insert; [| reflexivity]. intros i v. by rewrite lookup_empty. }
  split; [exact Hd |].
  destruct in_sync_create_never_overwrites as [Hlink _].
  apply (Hlink Scenario.URL_parses 3000 Sample.link_draft_19 Scenario.world_A Hd);
    [reflexivity | vm_compute; reflexivity | vm_compute; discriminate | compute_done].
Defined.

Lemma unique_numbers_insert (d : gmap string Version.t) s v :
  unique_numbers d →
  Version.versionCode v = JS.parseInt s →
  code_exists (versionsList d) s = false →
  unique_numbers (<[("version_" ++ s)%string := v]> d).
Proof.
  intros Hu Hv He i j u1 u2 H1 H2 Hc Hn.
  apply lookup_insert_Some in H1 as [[<- <-] | [Hi H1]];
    apply lookup_insert_Some in H2 as [[<- <-] | [Hj H2]]; try done.
  - rewrite Hv in Hc, Hn.
    by rewrite (code_exists_in_sync d j u2 s H2 (eq_sym Hc) Hn) in He.
  - rewrite Hv in Hc. rewrite Hc in Hn.
    by rewrite (code_exists_in_sync d i u1 s H1 Hc Hn) in He.
  - by eapply Hu.
Qed.

(** X8.  Sessions that hold the snapshot of the collection keep the codes
    apart: if no two documents share a [versionCode] other than [NaN],
    this is still so after [handleSubmit], after [handleUpload] however
    the task ends, and after [toggleVersionStatus]. *)
Theorem in_sync_create_keeps_codes_apart :
  (∀ URL_parses now (c : Link.State) w,
     Link.versions c = versionsList (docs w) →
     unique_numbers (docs w) →
     unique_numbers (docs (Link.handleSubmit URL_parses now c w).2)) ∧
  (∀ now t (c : Upload.State) w,
     Upload.versions c = versionsList (docs w) →
     unique_numbers (docs w) →
     unique_numbers (docs (Upload.handleUpload now t c w).2)) ∧
  (∀ versionId currentStatus w,
     unique_numbers (docs w) →
     unique_numbers (docs (toggleVersionStatus versionId currentStatus w).1)).
Proof.
  split_and!.
  - intros URL_parses now c w Hsync Hu. rewrite link_handleSubmit_docs.
    destruct (Link.validateForm URL_parses c).2 eqn:Hv; [|done].
    destruct (link_validateForm_true _ _ Hv) as (_ & _ & _ & Hf & _).
    apply orb_false_iff in Hf as [_ Hf]. rewrite Hsync in Hf.
    by apply unique_numbers_insert.
  - intros now t c w Hsync Hu. rewrite upload_handleUpload_docs.
    destruct (Upload.selectedFile c), t as [e | l [e | [url | e]]]; try done.
    destruct (Upload.validateForm c).2 eqn:Hv; [|done].
    destruct (upload_validateForm_true _ Hv) as (_ & _ & Hf & _).
    apply orb_false_iff in Hf as [_ Hf]. rewrite Hsync in Hf.
    by apply unique_numbers_insert.
  - intros versionId currentStatus w Hu.
    destruct (docs w !! versionId) as [v|] eqn:E.
    + rewrite (toggleVersionStatus_found _ _ _ _ E). simpl.
      intros i j u1 u2 H1 H2 Hc Hn.
      apply lookup_alter_Some in H1 as [[_ (u1' & H1 & ->)] | [_ H1]];
        apply lookup_alter_Some in H2 as [[_ (u2' & H2 & ->)] | [_ H2]];
        by eapply Hu.
    + by rewrite (toggleVersionStatus_missing _ _ _ E).
Qed.

(** The theorem at the session that adds 19 to the collection of
    scenario A. *)
Lemma in_sync_create_keeps_codes_apart_sample :
  unique_numbers (docs Scenario.world_A) ∧
  unique_numbers
    (docs (Link.handleSubmit Scenario.URL_parses 3000 Sample.link_draft_19
             Scenario.world_A).2).
Proof.
  assert (unique_numbers (docs Scenario.world_A)) as Hu.
  { change (docs Scenario.world_A)
      with (<["version_18"%string := Link.versionData 1000 Scenario.draft_18]>
              (∅ : gmap string Version.t)).
    intros i j v w [[<- _]|[_ Hi]]%lookup_insert_Some [[<- _]|[_ Hj]]%lookup_insert_Some _ _;
      by rewrite ?lookup_empty in *. }
  split; [exact Hu |].
  destruct in_sync_create_keeps_codes_apart as [Hlink _].
  apply (Hlink Scenario.URL_parses 3000 Sample.link_draft_19 Scenario.world_A);
    [reflexivity | exact Hu].
Defined.

End keys.

(** ** The form between two clicks *)

Section form.
Import UpdateManager Validation Form.

Lemma same_upload_form_validateForm c c' :
  same_upload_form c c' → (Upload.validateForm c').2 = (Upload.validateForm c).2.
Proof.
  intros (H1 & H2 & H3 & H4 & H5 & H6).
  unfold Upload.validateForm, Upload.newErrors. simpl. by rewrite H1, H2, H3, H4, H5.
Qed.

Lemma same_upload_form_versionData now c c' file downloadUrl :
  same_upload_form c c' →
  Upload.versionData now c' file downloadUrl = Upload.versionData now c file downloadUrl.
Proof.
  intros (H1 & H2 & H3 & H4 & H5 & H6).
  unfold Upload.versionData. by rewrite H3, H4, H5, H6.
Qed.

Lemma foldl_on_state_changed_form c l :
  same_upload_form c (foldl Upload.on_state_changed c l) ∧
  Upload.uploading (foldl Upload.on_state_changed c l) = Upload.uploading c ∧
  Upload.errors (foldl Upload.on_state_changed c l) = Upload.errors c.
Proof.
  revert c. induction l as [|s l IH]; intros c; [done |]. simpl.
  destruct (IH (Upload.on_state_changed c s)) as ((H1 & H2 & H3 & H4 & H5 & H6) & H7 & H8).
  unfold same_upload_form. by rewrite H1, H2, H3, H4, H5, H6, H7, H8.
Qed.

(** Where [handleUpload] leaves the form when the transfer fails. *)
Lemma upload_handleUpload_failed now t (c : Upload.State) w :
  (Upload.validateForm c).2 = true →
  (∃ e, t = Storage.throws e) ∨ (∃ l e, t = Storage.runs l (Storage.failed e)) →
  same_upload_form c (Upload.handleUpload now t c w).1 ∧
  Upload.uploading (Upload.handleUpload now t c w).1 = false ∧
  docs (Upload.handleUpload now t c w).2 = docs w ∧
  ∃ m, alerts (Upload.handleUpload now t c w).2 = alerts w ++ [m].
Proof.
  intros Hv Ht. unfold Upload.handleUpload.
  destruct (Upload.validateForm c) as [c' ok] eqn:E. simpl in Hv. subst ok. simpl.
  assert (c' = Upload.setErrors (Upload.newErrors c) c) as -> by (by injection E).
  destruct Ht as [[e ->] | (l & e & ->)]; simpl.
  - split_and!; [done | done | done | by eexists].
  - destruct (foldl_on_state_changed_form
                (Upload.setUploadProgress (JS.of_Z 0)
                   (Upload.setUploading true (Upload.setErrors (Upload.newErrors c) c))) l)
      as (Hform & _ & _).
    split_and!; [done | done | done | by eexists].
Qed.


(** X10.  A failed upload can be tried again: when [ref] or
    [uploadBytesResumable] throws, or the transfer fails, nothing is
    stored, one alert is shown, the button is enabled again and the form
    keeps its fields, so that a second click whose upload completes
    stores the document the first click would have stored. *)
Theorem failed_upload_can_be_retried now now' t l downloadUrl (c : Upload.State) w :
  (Upload.validateForm c).2 = true →
  (∃ e, t = Storage.throws e) ∨ (∃ l e, t = Storage.runs l (Storage.failed e)) →
  let first := Upload.handleUpload now t c w in
  docs first.2 = docs w ∧
  (∃ m, alerts first.2 = alerts w ++ [m]) ∧
  Upload.uploading first.1 = false ∧
  ∃ file,
    Upload.selectedFile c = Some file ∧
    docs (Upload.handleUpload now'
            (Storage.runs l (Storage.complete (JS.fulfilled downloadUrl)))
            first.1 first.2).2
      = <[("version_" ++ Upload.versionCode c)%string
          := Upload.versionData now' c file downloadUrl]> (docs w).
Proof.
  intros Hv Ht first.
  destruct (upload_handleUpload_failed now t c w Hv Ht) as (Hform & Hup & Hdocs & Halert).
  fold first in Hform, Hup, Hdocs, Halert.
  destruct (upload_validateForm_true c Hv) as [[file Hf] _].
  split_and!; [done | done | done |]. exists file. split; [done |].
  pose proof Hform as (_ & Hf' & _ & Hcode & _).
  erewrite upload_handleUpload_valid;
    [| by rewrite (same_upload_form_validateForm c) | by rewrite Hf'].
  simpl. by rewrite Hdocs, Hcode, (same_upload_form_versionData _ c).
Qed.

(** The theorem at the sample upload of version 18, first failing. *)
Lemma failed_upload_can_be_retried_sample :
  (Upload.validateForm Scenario.upload_draft_18).2 = true ∧
  docs (Upload.handleUpload 1000 Sample.failing_task Scenario.upload_draft_18
          Scenario.empty_world).2 = ∅.
Proof.
  assert ((Upload.validateForm Scenario.upload_draft_18).2 = true) as Hv
    by (vm_compute; reflexivity).
  split; [exact Hv |].
  refine (proj1 (failed_upload_can_be_retried 1000 2000 Sample.failing_task
                   Scenario.upload_snapshots "https://storage.example.com/a.apk"
                   Scenario.upload_draft_18 Scenario.empty_world Hv _)).
  right. by eexists _, _.
Defined.



End form.

(** ** The rows of the version table *)

Section rows.
Import UpdateManager.

Lemma set_isActive_back v b :
  Version.set_isActive (Version.isActive v) (Version.set_isActive b v) = v.
Proof. by destruct v. Qed.

Lemma alter_lookup_insert (d : gmap string Version.t) i v f :
  d !! i = Some v → alter f i d = <[i := f v]> d.
Proof.
  intros H. apply map_eq. intros j. rewrite lookup_alter, lookup_insert.
  case_decide; subst; rewrite ?decide_True, ?decide_False by done; by rewrite ?H.
Qed.

Lemma row_onClick_found (version : view) w :
  version ∈ versionsList (docs w) →
  Row.onClick version w
    = (set_docs (<[id version := Version.set_isActive
                                   (negb (Version.isActive (data version))) (data version)]>
                   (docs w)) w,
       JS.fulfilled JS.undefined).
Proof.
  destruct version as [i v]. intros H%elem_of_versionsList. unfold Row.onClick. simpl.
  rewrite (toggleVersionStatus_found _ _ _ _ H). by rewrite (alter_lookup_insert _ _ v).
Qed.

(** X12.  Clicking the switch of a row of the current snapshot flips
    [isActive] of that document and changes nothing else; clicking the
    switch of the same row of the snapshot taken after that brings the
    world back to where it was. *)
Theorem row_click_flips_and_flips_back (version : view) (w : World) :
  version ∈ versionsList (docs w) →
  let after := (Row.onClick version w).1 in
  docs after
    = <[id version := Version.set_isActive (negb (Version.isActive (data version)))
                                           (data version)]> (docs w) ∧
  console after = console w ∧ alerts after = alerts w ∧
  ∀ version', version' ∈ versionsList (docs after) → id version' = id version →
              Version.isActive (data version') = negb (Version.isActive (data version)) ∧
              (Row.onClick version' after).1 = w.
Proof.
  intros Hin after. subst after. rewrite (row_onClick_found _ _ Hin). cbn [fst].
  split_and!; [done | done | done |].
  intros version' Hin' Hid.
  rewrite (row_onClick_found _ _ Hin').
  destruct version' as [i' v']. simpl in Hid. subst i'.
  apply elem_of_versionsList in Hin'. simpl in Hin'. rewrite lookup_insert_eq in Hin'.
  injection Hin' as <-. split; [done |]. simpl.
  destruct version as [i v]. apply elem_of_versionsList in Hin. simpl.
  rewrite negb_involutive, set_isActive_back, insert_insert_eq, insert_id by done.
  by destruct w.
Qed.

(** The theorem at the row of version 18 after scenario A. *)
Lemma row_click_flips_and_flips_back_sample :
  {| id := "version_18"; data := Scenario.version_18 |}
    ∈ versionsList (docs Scenario.world_A) ∧
  Version.isActive
    <$> docs (Row.onClick {| id := "version_18"; data := Scenario.version_18 |}
                Scenario.world_A).1 !! "version_18"%string = Some false.
Proof.
  assert ({| id := "version_18"; data := Scenario.version_18 |}
            ∈ versionsList (docs Scenario.world_A)) as H.
  { apply elem_of_versionsList. compute_done. }
  split; [exact H |].
  destruct (row_click_flips_and_flips_back _ _ H) as (-> & _).
  by rewrite lookup_insert_eq.
Defined.

(** X13.  Switching a version on or off never changes which version is
    the latest: after [toggleVersionStatus], whether or not the document
    exists, [latestVersion] is the row of the same document as before,
    with the same code, so the latest version may well be an inactive
    one. *)
Theorem toggle_keeps_latest (versionId : string) (currentStatus : bool) (w : World) :
  let after := (toggleVersionStatus versionId currentStatus w).1 in
  id <$> latestVersion (versionsList (docs after))
    = id <$> latestVersion (versionsList (docs w)) ∧
  Catalog.code <$> latestVersion (versionsList (docs after))
    = Catalog.code <$> latestVersion (versionsList (docs w)) ∧
  (∀ l, latestVersion (versionsList (docs w)) = Some l → id l = versionId →
        Version.isActive
          <$> (data <$> latestVersion (versionsList (docs after)))
          = Some (negb currentStatus)).
Proof.
  intros after. subst after.
  destruct (docs w !! versionId) as [v|] eqn:E.
  - rewrite (toggleVersionStatus_found _ _ _ _ E). simpl.
    unfold versionsList. rewrite query_alter by done.
    destruct (Firestore.query_versionCode_desc (docs w)) as [|[i u] q]; [done |].
    simpl. split_and!; [done | by case_decide |].
    intros l [= <-] Hid. simpl in *. by rewrite decide_True.
  - rewrite (toggleVersionStatus_missing _ _ _ E). simpl. split_and!; [done | done |].
    intros [i v] Hl Hid. simpl in Hid. subst i.
    assert ({| id := versionId; data := v |} ∈ versionsList (docs w)) as Hin.
    { destruct (versionsList (docs w)); simplify_eq/=. by left. }
    apply elem_of_versionsList in Hin. congruence.
Qed.

End rows.

(** ** What is stored of the text fields *)

Section trimmed.
Import UpdateManager Validation Text.











End trimmed.

(** ** What is stored as the version code *)

Section stored_code.
Import UpdateManager Validation Text JS.














End stored_code.

(** ** More on concrete runs, and the frame of a commit *)

Section more_runs.
Import UpdateManager Validation.


(** Both exceptions occur: [0.5] is stored with the code 0 and [.5] with
    the code [NaN]. *)
Example stored_versionCode_zero_and_NaN :
  Version.versionCode
    <$> docs (Link.handleSubmit Scenario.URL_parses 1000 Sample.draft_half
                Scenario.empty_world).2 !! "version_0.5"%string = Some (JS.of_Z 0) ∧
  Version.versionCode <$> docs Sample.world_dot5 !! "version_.5"%string = Some JS.NaN.
Proof. split; compute_done. Qed.

(** A code that [parseInt] does not read is not protected by the snapshot:
    the session that holds the document stored under [version_.5]
    replaces it. *)
Example in_sync_NaN_code_overwrites :
  Link.versions Sample.draft_dot5_again = versionsList (docs Sample.world_dot5) ∧
  Version.changelog <$> docs Sample.world_dot5 !! "version_.5"%string
    = Some "first"%string ∧
  Version.changelog
    <$> docs (Link.handleSubmit Scenario.URL_parses 2000 Sample.draft_dot5_again
                Sample.world_dot5).2 !! "version_.5"%string = Some "second"%string.
Proof. split_and!; [reflexivity | compute_done | compute_done]. Qed.

(** X16.  A commit touches one key and removes nothing: after
    [handleSubmit], and after [handleUpload] however the task ends, every
    document stored under another key than [version_{versionCode}] is as
    it was, and every key of the collection is still a key. *)
Theorem commit_frame :
  (∀ URL_parses now (c : Link.State) w,
     let after := docs (Link.handleSubmit URL_parses now c w).2 in
     (∀ j, j ≠ ("version_" ++ Link.versionCode c)%string → after !! j = docs w !! j) ∧
     dom (docs w) ⊆ dom after) ∧
  (∀ now t (c : Upload.State) w,
     let after := docs (Upload.handleUpload now t c w).2 in
     (∀ j, j ≠ ("version_" ++ Upload.versionCode c)%string → after !! j = docs w !! j) ∧
     dom (docs w) ⊆ dom after).
Proof.
  split.
  - intros URL_parses now c w after. subst after. rewrite link_handleSubmit_docs.
    destruct (Link.validateForm URL_parses c).2; [| done].
    split; [intros j Hj; by rewrite lookup_insert_ne | rewrite dom_insert_L; set_solver].
  - intros now t c w after. subst after. rewrite upload_handleUpload_docs.
    destruct (Upload.selectedFile c), t as [e | l [e | [url | e]]]; try done.
    destruct (Upload.validateForm c).2; [| done].
    split; [intros j Hj; by rewrite lookup_insert_ne | rewrite dom_insert_L; set_solver].
Qed.

End more_runs.
